(** * Case inference pipeline of the grievance-redressal dashboard

    A shallow embedding of [utils.py] (text normaliser, the three
    vectorise-then-predict wrappers, the guidance table) and of the
    "Analyze Case" handler of [app.py], followed by the properties of the
    pipeline that the specification states.

    Python text is a sequence of Unicode code points; the pickled
    vectorisers and models are opaque artefacts and enter as parameters. *)

From Stdlib Require Import List Arith NArith ZArith Bool Lia Ascii String.
Import ListNotations.

Local Open Scope N_scope.
Local Open Scope list_scope.

(** ** Python strings *)

(** A [str] is the list of its code points. *)
Definition str : Type := list N.

(** An ASCII literal of the source, character by character. *)
Definition lit (s : string) : str := map N_of_ascii (list_ascii_of_string s).

Definition chr (a : ascii) : N := N_of_ascii a.

Definition in_range (lo hi c : N) : bool := (lo <=? c) && (c <=? hi).

Definition is_ascii_upper (c : N) : bool := in_range (chr "A") (chr "Z") c.
Definition is_ascii_lower (c : N) : bool := in_range (chr "a") (chr "z") c.
Definition is_ascii_digit (c : N) : bool := in_range (chr "0") (chr "9") c.

Definition BACKSLASH : N := 92.
Definition SPACE : N := 32.
Definition NEWLINE : N := 10.
Definition LETTER_s : N := chr "s".

(** [a == b] on strings. *)
Fixpoint str_eqb (a b : str) : bool :=
  match a, b with
  | [], [] => true
  | x :: a', y :: b' => (x =? y) && str_eqb a' b'
  | _, _ => false
  end.

(** [str.isspace] for one code point: the characters CPython classifies
    as whitespace. *)
Definition isspace (c : N) : bool :=
  in_range 9 13 c || in_range 28 31 c || (c =? 32) || (c =? 133) ||
  (c =? 160) || (c =? 5760) || in_range 8192 8202 c || (c =? 8232) ||
  (c =? 8233) || (c =? 8239) || (c =? 8287) || (c =? 12288).

(** [s.lower()] on an ASCII code point. *)
Definition ascii_lower (c : N) : N :=
  if is_ascii_upper c then c + 32 else c.

(** Stripping: [lstrip], [rstrip] and [strip] over a character predicate. *)
Fixpoint lstrip_by (p : N -> bool) (s : str) : str :=
  match s with
  | [] => []
  | c :: t => if p c then lstrip_by p t else s
  end.

Definition rstrip_by (p : N -> bool) (s : str) : str :=
  rev (lstrip_by p (rev s)).

Definition strip_by (p : N -> bool) (s : str) : str :=
  rstrip_by p (lstrip_by p s).

(** [s.strip()] *)
Definition strip (s : str) : str := strip_by isspace s.

(** [s.strip(chars)] *)
Definition strip_chars (chars : str) (s : str) : str :=
  strip_by (fun c => existsb (N.eqb c) chars) s.

(** [s.split("\n")]: one piece more than there are newlines. *)
Fixpoint split_newline (s : str) : list str :=
  match s with
  | [] => [[]]
  | c :: t =>
      if c =? NEWLINE then [] :: split_newline t
      else match split_newline t with
           | piece :: pieces => (c :: piece) :: pieces
           | [] => [[c]]
           end
  end.

(** [needle in hay] *)
Fixpoint startswith (p s : str) : bool :=
  match p, s with
  | [], _ => true
  | _ :: _, [] => false
  | a :: p', b :: s' => (a =? b) && startswith p' s'
  end.

Fixpoint contains (needle hay : str) : bool :=
  startswith needle hay ||
  match hay with
  | [] => false
  | _ :: t => contains needle t
  end.

(** ** The two substitutions of [preprocess_text] *)

(** The set inside [[^a-zA-Z0-9\\s]]: the three ranges, the backslash that
    the doubled escape denotes, and the letter [s]. *)
Definition in_kept_class (c : N) : bool :=
  is_ascii_lower c || is_ascii_upper c || is_ascii_digit c ||
  (c =? BACKSLASH) || (c =? LETTER_s).

(** [re.sub(r'[^a-zA-Z0-9\\s]', '', text)]: each character outside the
    set is replaced by the empty string. *)
Definition sub_outside_class (text : str) : str := filter in_kept_class text.

Definition next_is_s (rest : str) : bool :=
  match rest with
  | c :: _ => c =? LETTER_s
  | [] => false
  end.

(** [re.sub(r'\\s+', ' ', text)]: the pattern is a backslash followed by
    one or more [s]; each leftmost, greedy match becomes one space.
    [in_match] is set while the run of [s] of the current match is being
    consumed. *)
Fixpoint sub_backslash_s_from (in_match : bool) (text : str) : str :=
  match text with
  | [] => []
  | c :: rest =>
      if in_match && (c =? LETTER_s) then sub_backslash_s_from true rest
      else if (c =? BACKSLASH) && next_is_s rest
           then SPACE :: sub_backslash_s_from true rest
           else c :: sub_backslash_s_from false rest
  end.

Definition sub_backslash_s (text : str) : str :=
  sub_backslash_s_from false text.

(** ** Sample artefacts

    A concrete case table and concrete models over [N], used to run the
    pipeline on examples. *)
Module Sample.

(** A case table that leaves every non-ASCII code point as it is. *)
Definition nonascii_lower (whole : str) (i : nat) (c : N) : list N := [c].

Definition vectorizer (text : str) : list N := [N.of_nat (List.length text)].

Definition claim_model (row : list N) : str :=
  match row with
  | n :: _ => if n <? 12 then lit "land dispute" else lit "missing person"
  | [] => lit "other"
  end.

Definition score_model (row : list N) : N :=
  match row with
  | n :: _ => n
  | [] => 0
  end.

(** Decides on the last feature, which is the appended score. *)
Definition status_model (row : list N) : str :=
  if last row 0 <? 10 then lit "running" else lit "closed".


End Sample.

Section Pipeline.

(** ** Unicode case mapping

    [str.lower] maps the string code point by code point; a code point
    may lower to several, and the capital sigma looks at its context.
    The ASCII part is fixed; the table for the rest of Unicode is a
    parameter, given the whole string and the position. *)
Variable nonascii_lower : str -> nat -> N -> list N.

Definition lower_ucs4 (whole : str) (i : nat) (c : N) : list N :=
  if c <? 128 then [ascii_lower c] else nonascii_lower whole i c.

Fixpoint lower_from (whole : str) (i : nat) (s : str) : str :=
  match s with
  | [] => []
  | c :: t => lower_ucs4 whole i c ++ lower_from whole (S i) t
  end.

(** [s.lower()] *)
Definition lower (s : str) : str := lower_from s 0 s.

(** ** utils.preprocess_text *)
Definition preprocess_text (text : str) : str :=
  let text := lower text in
  let text := sub_outside_class text in
  let text := strip (sub_backslash_s text) in
  text.

(** ** utils.get_guidance

    The five guidance texts, as the adjacent literals of the source:
    five lines, the first four ended by a newline. *)
Definition nl : str := [NEWLINE].

Definition GUIDANCE_MISSING : str :=
  lit "- Expand Call Detail Records (CDR) to include past week." ++ nl ++
  lit "- Verify financial transactions or ATM usage." ++ nl ++
  lit "- Retrieve last seen location from telecom service provider." ++ nl ++
  lit "- Involve cyber cell for social media tracking." ++ nl ++
  lit "- Coordinate with nearby districts and share details.".

Definition GUIDANCE_FRAUD : str :=
  lit "- Request bank transaction logs and freeze suspected accounts." ++ nl ++
  lit "- Trace caller's location using CDR and IMEI." ++ nl ++
  lit "- Contact cyber crime unit for digital trail analysis." ++ nl ++
  lit "- Verify IP logs from telecom operator." ++ nl ++
  lit "- Check for previous complaints on the same number/account.".

Definition GUIDANCE_LAND : str :=
  lit "- Cross-check land registry and ownership records." ++ nl ++
  lit "- Contact Patwari and revenue department for demarcation." ++ nl ++
  lit "- Prevent escalation by enforcing temporary injunction." ++ nl ++
  lit "- Ensure both parties are legally notified." ++ nl ++
  lit "- Recommend civil court proceedings if documents are disputed.".

(** The fourth line carries three non-ASCII code points between
    [women] and [s] (U+00E2, U+20AC, U+2122), as stored in the file. *)
Definition GUIDANCE_DOMESTIC : str :=
  lit "- Record victim and witness statements sensitively." ++ nl ++
  lit "- Conduct a medical examination with proper documentation." ++ nl ++
  lit "- Ensure victim safety through immediate protection measures." ++ nl ++
  lit "- Involve women" ++ [226; 8364; 8482] ++
    lit "s help cell if required." ++ nl ++
  lit "- Register FIR under relevant IPC and Domestic Violence Act.".

Definition GUIDANCE_DEFAULT : str :=
  lit "- Review complaint content thoroughly." ++ nl ++
  lit "- Ensure FIR has been registered if needed." ++ nl ++
  lit "- Contact relevant units for support (e.g., cyber cell, legal)." ++ nl ++
  lit "- Update complainant about current status regularly." ++ nl ++
  lit "- Submit progress report to supervising officer.".

Definition get_guidance (complaint claim response : str) : str :=
  let claim := lower claim in
  if contains (lit "missing") claim then GUIDANCE_MISSING
  else if contains (lit "fraud") claim || contains (lit "cyber") claim
       then GUIDANCE_FRAUD
  else if contains (lit "land") claim then GUIDANCE_LAND
  else if contains (lit "domestic") claim then GUIDANCE_DOMESTIC
  else GUIDANCE_DEFAULT.

(** ** app.extract_action_steps *)
Definition PUSHPIN : N := 128204.

Definition truthy (s : str) : bool :=
  match s with [] => false | _ :: _ => true end.

Definition extract_action_steps (guidance_text : str) : list str :=
  map (fun line => strip (strip_chars [PUSHPIN; SPACE] line))
      (filter (fun line => truthy (strip line))
              (split_newline (strip guidance_text))).

(** ** The pickled artefacts

    [num] stands for the floating-point type of feature values and of
    the score.  A vectoriser is given by the feature row it computes for
    one document, a model by its decision on one feature row;
    [transform] and [predict] work row by row. *)
Variable num : Type.
Variable claim_vectorizer score_vectorizer status_vectorizer : str -> list num.
Variable claim_model : list num -> str.
Variable score_model : list num -> num.
Variable status_model : list num -> str.

Definition matrix : Type := list (list num).

Inductive vectorizer_id := ClaimVectorizer | ScoreVectorizer | StatusVectorizer.
Inductive model_id := ClaimModel | ScoreModel | StatusModel.

Definition vectorizer_of (v : vectorizer_id) : str -> list num :=
  match v with
  | ClaimVectorizer => claim_vectorizer
  | ScoreVectorizer => score_vectorizer
  | StatusVectorizer => status_vectorizer
  end.

(** ** Session state, records and observable events *)

Inductive value :=
| VStr (s : str)
| VNum (x : num).

(** A Python dict with string keys, in insertion order. *)
Definition dict : Type := list (str * value).

(** [st.session_state]: the attribute [cases] may be absent. *)
Record session_state := { cases : option (list dict) }.

(** The calls to the page.  [dashboard rows] stands for everything the
    handler renders from the data frame [rows] after the status branch:
    the dashboard heading, the explanation in the expander, the three
    charts, the table heading and the table. *)
Inductive widget :=
| st_error (msg : str)
| st_write (msg : str)
| st_success (msg : str)
| st_warning (msg : str)
| st_info (msg : str)
| st_subheader (msg : str)
| st_markdown (msg : str)
| plotly_sankey (steps : list str)
| dashboard (rows : list dict).

Inductive event :=
| Transform (v : vectorizer_id) (docs : list str)
| Predict (m : model_id) (X : matrix)
| Guidance (complaint claim response : str)
| UI (w : widget).

Inductive exn := IndexError | ValueError | AttributeError.

(** ** A state, trace and exception monad *)
Definition M (A : Type) : Type :=
  session_state -> (exn + A) * session_state * list event.

Definition ret {A} (a : A) : M A := fun s => (inr a, s, []).

Definition bind {A B} (m : M A) (k : A -> M B) : M B :=
  fun s =>
    match m s with
    | (inr a, s', t) =>
        match k a s' with
        | (r, s'', t') => (r, s'', t ++ t')
        end
    | (inl e, s', t) => (inl e, s', t)
    end.

Definition raise {A} (e : exn) : M A := fun s => (inl e, s, []).
Definition emit (e : event) : M unit := fun s => (inr tt, s, [e]).

Notation "x <- m ;; k" := (bind m (fun x => k))
  (at level 61, m at next level, right associativity).
Notation "m ;; k" := (bind m (fun _ => k))
  (at level 61, right associativity).

Fixpoint for_each {A} (body : A -> M unit) (l : list A) : M unit :=
  match l with
  | [] => ret tt
  | x :: l' => body x ;; for_each body l'
  end.

Definition result_of {A} (r : (exn + A) * session_state * list event) := fst (fst r).
Definition state_of {A} (r : (exn + A) * session_state * list event) := snd (fst r).
Definition trace_of {A} (r : (exn + A) * session_state * list event) := snd r.

(** ** utils: the vectorise-then-predict wrappers *)

(** [vectorizer.transform(docs)] *)
Definition transform (v : vectorizer_id) (docs : list str) : M matrix :=
  emit (Transform v docs) ;; ret (map (vectorizer_of v) docs).

(** [model.predict(X)] for the three models. *)
Definition claim_model_predict (X : matrix) : M (list str) :=
  emit (Predict ClaimModel X) ;; ret (map claim_model X).
Definition score_model_predict (X : matrix) : M (list num) :=
  emit (Predict ScoreModel X) ;; ret (map score_model X).
Definition status_model_predict (X : matrix) : M (list str) :=
  emit (Predict StatusModel X) ;; ret (map status_model X).

(** [xs[0]] *)
Definition item0 {A} (xs : list A) : M A :=
  match xs with
  | x :: _ => ret x
  | [] => raise IndexError
  end.

(** [np.hstack((a, b))] on two-dimensional arrays: the rows are joined
    pairwise, and the row counts must agree. *)
Definition hstack (a b : matrix) : M matrix :=
  if Nat.eqb (List.length a) (List.length b)
  then ret (map (fun ab => fst ab ++ snd ab) (combine a b))
  else raise ValueError.

Definition predict_claim_type (text : str) : M str :=
  vec <- transform ClaimVectorizer [text] ;;
  labels <- claim_model_predict vec ;;
  item0 labels.

Definition predict_score (response : str) : M num :=
  vec <- transform ScoreVectorizer [response] ;;
  scores <- score_model_predict vec ;;
  item0 scores.

Definition predict_status (complaint claim response : str) (score : num) : M str :=
  let combined := complaint ++ lit " " ++ claim ++ lit " " ++ response in
  vec <- transform StatusVectorizer [combined] ;;
  final_input <- hstack vec [[score]] ;;
  labels <- status_model_predict final_input ;;
  item0 labels.

(** ** app: rendering helpers *)

Definition generate_plan_of_action (guidance_text : str) : M unit :=
  emit (UI (st_subheader ([129517] ++ lit " Plan of Action"))) ;;
  for_each (fun line => emit (UI (st_markdown ([PUSHPIN] ++ lit " " ++ line))))
           (split_newline (strip guidance_text)).

Definition plot_plan_of_action_graph (steps : list str) : M unit :=
  if Nat.ltb (List.length steps) 2
  then emit (UI (st_info (lit "Not enough action steps to draw a diagram.")))
  else emit (UI (plotly_sankey steps)).

(** The chart sits in the middle of three columns.  What the two outer
    columns show when [police.gif] and [ai.gif] exist on disk (an image
    and an arrow written with [st.markdown], each) depends on the file
    system and is left out. *)
Definition display_flow_with_gifs (steps : list str) : M unit :=
  plot_plan_of_action_graph steps.

Definition draw_use_case_diagram_dynamic (guidance_text : str) : M unit :=
  let steps := extract_action_steps guidance_text in
  emit (UI (st_subheader ([128216] ++ lit " Dynamic Use Case Diagram"))) ;;
  display_flow_with_gifs steps.

(** ** app: the "Analyze Case" handler *)

Definition has_cases : M bool :=
  fun s => (inr (match cases s with Some _ => true | None => false end), s, []).

Definition set_cases (l : list dict) : M unit :=
  fun _ => (inr tt, {| cases := Some l |}, []).

Definition get_cases : M (list dict) :=
  fun s => match cases s with
           | Some l => (inr l, s, [])
           | None => (inl AttributeError, s, [])
           end.

(** [st.session_state.cases.append(rec)] *)
Definition append_case (rec : dict) : M unit :=
  l <- get_cases ;; set_cases (l ++ [rec]).

Definition VALIDATION_MESSAGE : str :=
  lit "Please enter both petition and response.".

Definition case_record (petition claim response : str) (score : num)
    (status : str) : dict :=
  [ (lit "Petition", VStr petition);
    (lit "Claim", VStr claim);
    (lit "Response", VStr response);
    (lit "Score", VNum score);
    (lit "Status", VStr status) ].

Definition analyze_case (petition response : str) : M unit :=
  if negb (truthy petition) || negb (truthy response) then
    emit (UI (st_error VALIDATION_MESSAGE))
  else
    claim <- predict_claim_type petition ;;
    score <- predict_score response ;;
    status <- predict_status petition claim response score ;;
    emit (UI (st_write (lit "### " ++ [129534] ++ lit " Case Status: `"
                          ++ status ++ lit "`"))) ;;
    present <- has_cases ;;
    (if negb present then set_cases [] else ret tt) ;;
    append_case (case_record petition claim response score status) ;;
    (if str_eqb (lower status) (lit "closed") then
       emit (UI (st_success ([9989] ++
                 lit " The case is closed. No further action required.")))
     else
       emit (UI (st_warning ([128680] ++
                 lit " The case is still running. Suggesting next steps..."))) ;;
       emit (Guidance petition claim response) ;;
       (let guidance_text := get_guidance petition claim response in
        generate_plan_of_action guidance_text ;;
        draw_use_case_diagram_dynamic guidance_text ;;
        emit (UI (st_markdown (lit "##### " ++ [129517] ++
          lit " This flowchart represents the AI + Police recommended course of action based on the case inputs."))))) ;;
    df <- get_cases ;;
    emit (UI (dashboard df)).

(** ** Derived views used in the statements *)

(** What the pipeline computes for a petition and a response. *)
Definition claim_of (petition : str) : str :=
  claim_model (claim_vectorizer petition).
Definition score_of (response : str) : num :=
  score_model (score_vectorizer response).
Definition status_blob (petition claim response : str) : str :=
  petition ++ [SPACE] ++ claim ++ [SPACE] ++ response.
Definition status_row (petition response : str) : list num :=
  status_vectorizer (status_blob petition (claim_of petition) response)
    ++ [score_of response].
Definition status_of (petition response : str) : str :=
  status_model (status_row petition response).

Definition record_of (call : str * str) : dict :=
  let (petition, response) := call in
  case_record petition (claim_of petition) response (score_of response)
              (status_of petition response).

Definition is_classifier_event (e : event) : bool :=
  match e with
  | Transform _ _ | Predict _ _ => true
  | _ => false
  end.

Definition is_validation_error (e : event) : bool :=
  match e with
  | UI (st_error _) => true
  | _ => false
  end.

(** The arguments of the calls to [get_guidance] in a trace, in order. *)
Fixpoint guidance_calls (t : list event) : list (str * str * str) :=
  match t with
  | [] => []
  | Guidance complaint claim response :: t' =>
      (complaint, claim, response) :: guidance_calls t'
  | _ :: t' => guidance_calls t'
  end.

Definition is_transform (e : event) : bool :=
  match e with
  | Transform _ _ => true
  | _ => false
  end.

(** The events that follow the status line on a successful run, up to
    the dashboard. *)
Definition follow_up (petition claim response status : str) : list event :=
  if str_eqb (lower status) (lit "closed") then
    [UI (st_success ([9989] ++
           lit " The case is closed. No further action required."))]
  else
    let guidance_text := get_guidance petition claim response in
    [UI (st_warning ([128680] ++
           lit " The case is still running. Suggesting next steps..."));
     Guidance petition claim response;
     UI (st_subheader ([129517] ++ lit " Plan of Action"))]
    ++ map (fun line => UI (st_markdown ([PUSHPIN] ++ lit " " ++ line)))
           (split_newline (strip guidance_text))
    ++ [UI (st_subheader ([128216] ++ lit " Dynamic Use Case Diagram"));
        (if Nat.ltb (List.length (extract_action_steps guidance_text)) 2
         then UI (st_info (lit "Not enough action steps to draw a diagram."))
         else UI (plotly_sankey (extract_action_steps guidance_text)));
        UI (st_markdown (lit "##### " ++ [129517] ++
          lit " This flowchart represents the AI + Police recommended course of action based on the case inputs."))].

(** The characters that can occur in a normalised text. *)
Definition in_output_alphabet (c : N) : bool :=
  is_ascii_lower c || is_ascii_digit c || (c =? BACKSLASH) || (c =? SPACE).

(** The session history: the list under [cases], empty while absent. *)
Definition history (s : session_state) : list dict :=
  match cases s with
  | Some l => l
  | None => []
  end.

Definition fresh_session : session_state := {| cases := None |}.

(** A session is a sequence of handler runs, each on the state the
    previous one left. *)
Fixpoint run_calls (calls : list (str * str)) (s : session_state) : session_state :=
  match calls with
  | [] => s
  | (petition, response) :: rest =>
      run_calls rest (state_of (analyze_case petition response s))
  end.

Definition successful (call : str * str) : bool :=
  truthy (fst call) && truthy (snd call).

(** [rec[key]] *)
Fixpoint lookup (key : str) (rec : dict) : option value :=
  match rec with
  | [] => None
  | (k, v) :: rest => if str_eqb k key then Some v else lookup key rest
  end.

Definition has_status (label : str) (rec : dict) : bool :=
  match lookup (lit "Status") rec with
  | Some (VStr s) => str_eqb s label
  | _ => false
  end.



(** The reading of the pipeline in which every document handed to a
    vectoriser is a normalised text. *)
Definition normalized_before_vectorization (petition response : str) : Prop :=
  forall s v docs,
    In (Transform v docs) (trace_of (analyze_case petition response s)) ->
    Forall (fun d => exists raw, d = preprocess_text raw) docs.

(** ** app.plot_plan_of_action_graph: the links of the chart *)

(** [list(range(lo, hi))] *)
Definition py_range (lo hi : Z) : list Z :=
  map (fun i => (lo + Z.of_nat i)%Z) (seq 0 (Z.to_nat (hi - lo))).

(** [len(xs)] *)
Definition len {A} (xs : list A) : Z := Z.of_nat (List.length xs).

Definition sankey_source (steps : list str) : list Z :=
  py_range 0 (len steps - 1).

Definition sankey_target (steps : list str) : list Z :=
  py_range 1 (len steps).

(** [[1] * len(source)] *)
Definition sankey_value (steps : list str) : list Z :=
  repeat 1%Z (Z.to_nat (len (sankey_source steps))).

(** ** Text helpers of the statements *)

(** ["\n".join(pieces)] *)
Fixpoint join_newline (pieces : list str) : str :=
  match pieces with
  | [] => []
  | [piece] => piece
  | piece :: rest => piece ++ [NEWLINE] ++ join_newline rest
  end.

Definition is_dashboard (e : event) : bool :=
  match e with
  | UI (dashboard _) => true
  | _ => false
  end.

(** ** app: the dataset page, the check of the columns

    The table read from the CSV file enters by its column labels. *)

Definition RENAMED_COLUMNS : list (str * str) :=
  [ (lit "complaint_text", lit "Petition");
    (lit "extracted_claims", lit "Claim");
    (lit "io_response", lit "Response");
    (lit "response_score", lit "Score");
    (lit "final_status", lit "Status") ].

(** [df.rename(columns=mapping)] on one column label. *)
Fixpoint rename_column (mapping : list (str * str)) (label : str) : str :=
  match mapping with
  | [] => label
  | (old, new) :: rest =>
      if str_eqb label old then new else rename_column rest label
  end.

(** The labels after [df.columns.str.strip()] and the renaming. *)
Definition dataset_columns (header : list str) : list str :=
  map (rename_column RENAMED_COLUMNS) (map strip header).

(** The members of the set [expected_cols]. *)
Definition EXPECTED_COLS : list str :=
  [lit "Petition"; lit "Claim"; lit "Response"; lit "Score"; lit "Status"].

(** [x in columns], [column.isin(options)] on one cell. *)
Definition isin (x : str) (options : list str) : bool :=
  existsb (str_eqb x) options.

(** [expected_cols - set(df.columns)], as the list of its members. *)
Definition missing_cols (columns : list str) : list str :=
  filter (fun e => negb (isin e columns)) EXPECTED_COLS.

(** * Properties *)

(** ** Text helpers *)

Lemma lstrip_by_suffix (p : N -> bool) (s : str) :
  exists pre, s = pre ++ lstrip_by p s.
Proof.
  induction s as [|c t IH]; simpl.
  - exists []. reflexivity.
  - destruct (p c).
    + destruct IH as [pre IH]. exists (c :: pre). simpl. now rewrite <- IH.
    + exists []. reflexivity.
Qed.

Lemma lstrip_by_head (p : N -> bool) (s : str) (c : N) (t : str) :
  lstrip_by p s = c :: t -> p c = false.
Proof.
  induction s as [|a s' IH]; simpl; [discriminate|].
  destruct (p a) eqn:Ha; [exact IH|].
  intros E. injection E as -> _. exact Ha.
Qed.

Lemma rstrip_by_prefix (p : N -> bool) (s : str) :
  exists post, s = rstrip_by p s ++ post.
Proof.
  unfold rstrip_by.
  destruct (lstrip_by_suffix p (rev s)) as [pre E].
  exists (rev pre).
  rewrite <- rev_app_distr, <- E. symmetry. apply rev_involutive.
Qed.

Lemma rstrip_by_last (p : N -> bool) (s init : str) (c : N) :
  rstrip_by p s = init ++ [c] -> p c = false.
Proof.
  unfold rstrip_by. intros E.
  apply (f_equal (@rev N)) in E.
  rewrite rev_involutive, rev_app_distr in E. simpl in E.
  exact (lstrip_by_head _ _ _ _ E).
Qed.

Lemma strip_by_head (p : N -> bool) (s : str) (c : N) (t : str) :
  strip_by p s = c :: t -> p c = false.
Proof.
  unfold strip_by. intros E.
  destruct (rstrip_by_prefix p (lstrip_by p s)) as [post F].
  rewrite E in F. simpl in F.
  exact (lstrip_by_head _ _ _ _ F).
Qed.

Lemma strip_by_last (p : N -> bool) (s init : str) (c : N) :
  strip_by p s = init ++ [c] -> p c = false.
Proof. unfold strip_by. apply rstrip_by_last. Qed.

Lemma lstrip_by_Forall (P : N -> Prop) (p : N -> bool) (s : str) :
  Forall P s -> Forall P (lstrip_by p s).
Proof.
  induction 1 as [|c t Hc Ht IH]; simpl; [constructor|].
  destruct (p c); [exact IH | now constructor].
Qed.

Lemma strip_by_Forall (P : N -> Prop) (p : N -> bool) (s : str) :
  Forall P s -> Forall P (strip_by p s).
Proof.
  intros H. unfold strip_by, rstrip_by.
  apply Forall_rev, lstrip_by_Forall, Forall_rev, lstrip_by_Forall, H.
Qed.

Lemma sub_backslash_s_from_Forall (P : N -> Prop) (text : str) :
  P SPACE -> Forall P text ->
  forall in_match, Forall P (sub_backslash_s_from in_match text).
Proof.
  intros Hsp. induction 1 as [|c t Hc Ht IH]; intros in_match; simpl.
  - constructor.
  - destruct (in_match && (c =? LETTER_s)); [apply IH|].
    destruct ((c =? BACKSLASH) && next_is_s t); constructor; auto.
Qed.

Lemma ascii_lower_not_upper (c : N) : is_ascii_upper (ascii_lower c) = false.
Proof.
  unfold ascii_lower, is_ascii_upper, in_range, chr. simpl.
  destruct ((65 <=? c) && (c <=? 90)) eqn:E.
  - apply andb_true_iff in E as [E1 E2].
    apply N.leb_le in E1, E2.
    apply andb_false_iff. right. apply N.leb_gt. lia.
  - exact E.
Qed.

Lemma kept_not_upper_in_alphabet (c : N) :
  in_kept_class c = true -> is_ascii_upper c = false ->
  in_output_alphabet c = true.
Proof.
  unfold in_kept_class, in_output_alphabet. intros K U. rewrite U in K.
  rewrite orb_false_r in K.
  destruct (is_ascii_lower c) eqn:L; [reflexivity|].
  destruct (is_ascii_digit c); [reflexivity|].
  destruct (c =? BACKSLASH); [reflexivity|]. simpl in K.
  apply N.eqb_eq in K. subst c. discriminate L.
Qed.

Lemma alphabet_not_upper (c : N) :
  in_output_alphabet c = true -> is_ascii_upper c = false.
Proof.
  unfold in_output_alphabet, is_ascii_upper, is_ascii_lower, is_ascii_digit,
    in_range, chr, BACKSLASH, SPACE. simpl. intros H.
  apply andb_false_iff.
  destruct (c <=? 90) eqn:E; [left | now right].
  apply N.leb_le in E. apply N.leb_gt.
  repeat (apply orb_true_iff in H as [H|H]).
  - apply andb_true_iff in H as [H _]. apply N.leb_le in H. lia.
  - apply andb_true_iff in H as [H1 H2]. apply N.leb_le in H2. lia.
  - apply N.eqb_eq in H. lia.
  - apply N.eqb_eq in H. lia.
Qed.

(** ** The normaliser *)

Section CaseTable.

(** No code point lowers to an ASCII capital. *)
Hypothesis nonascii_lower_no_capital :
  forall whole i c, 128 <= c ->
    Forall (fun x => is_ascii_upper x = false) (nonascii_lower whole i c).

Lemma lower_from_no_capital (whole s : str) :
  forall i, Forall (fun x => is_ascii_upper x = false) (lower_from whole i s).
Proof.
  induction s as [|c t IH]; intros i; simpl; [constructor|].
  apply Forall_app. split; [|apply IH].
  unfold lower_ucs4. destruct (c <? 128) eqn:E.
  - constructor; [apply ascii_lower_not_upper | constructor].
  - apply nonascii_lower_no_capital. apply N.ltb_ge in E. exact E.
Qed.

Lemma preprocess_text_alphabet (text : str) :
  Forall (fun c => in_output_alphabet c = true) (preprocess_text text).
Proof.
  unfold preprocess_text, strip, sub_backslash_s, sub_outside_class.
  apply strip_by_Forall, sub_backslash_s_from_Forall; [reflexivity|].
  apply Forall_forall. intros c Hc. apply filter_In in Hc as [Hin Hk].
  apply kept_not_upper_in_alphabet; [exact Hk|].
  pose proof (lower_from_no_capital text text 0%nat) as F.
  rewrite Forall_forall in F. apply F. exact Hin.
Qed.

(** C10. Whatever the input, the result of [preprocess_text] has no
    capital letter (every character of it is a lower-case ASCII
    letter, a digit, a backslash or a space), and neither its first
    nor its last character is whitespace. *)
Theorem preprocess_text_lowercase_and_trimmed (text : str) :
  Forall (fun c => in_output_alphabet c = true) (preprocess_text text) /\
  Forall (fun c => is_ascii_upper c = false) (preprocess_text text) /\
  (forall c rest, preprocess_text text = c :: rest -> isspace c = false) /\
  (forall init c, preprocess_text text = init ++ [c] -> isspace c = false).
Proof.
  split; [apply preprocess_text_alphabet|].
  split.
  { eapply Forall_impl; [|apply preprocess_text_alphabet].
    intros c. apply alphabet_not_upper. }
  split.
  - intros c rest E. exact (strip_by_head _ _ _ _ E).
  - intros init c E. exact (strip_by_last _ _ _ _ E).
Qed.

End CaseTable.

Example preprocess_hello :
  preprocess_text (lit "Hello,  World! 42") = lit "helloworld42".
Proof. reflexivity. Qed.

Example preprocess_backslash_s_runs :
  preprocess_text (lit "x\ss\sY") = lit "x  y".
Proof. reflexivity. Qed.

(** C3. [preprocess_text] is not idempotent on the four characters
    a, backslash, s, b: the first pass turns the backslash and the s
    into a space, the second pass deletes that space. *)
Theorem preprocess_text_twice_differs :
  preprocess_text (lit "a\sb") = lit "a b" /\
  preprocess_text (preprocess_text (lit "a\sb")) = lit "ab" /\
  preprocess_text (preprocess_text (lit "a\sb")) <> preprocess_text (lit "a\sb").
Proof.
  split; [reflexivity|]. split; [reflexivity|]. discriminate.
Qed.

(** C4. A backslash passes through [preprocess_text]: on the three
    characters a, backslash, b the result is the input itself, which
    holds a character that is neither a letter, a digit nor a space. *)
Theorem preprocess_text_keeps_backslash :
  preprocess_text (lit "a\b") = lit "a\b" /\
  In BACKSLASH (preprocess_text (lit "a\b")) /\
  is_ascii_lower BACKSLASH || is_ascii_upper BACKSLASH ||
    is_ascii_digit BACKSLASH || isspace BACKSLASH = false.
Proof.
  split; [reflexivity|]. split; [|reflexivity].
  right. left. reflexivity.
Qed.

(** ** The guidance resolver *)

Lemma get_guidance_cases (complaint claim response : str) :
  In (get_guidance complaint claim response)
     [GUIDANCE_MISSING; GUIDANCE_FRAUD; GUIDANCE_LAND; GUIDANCE_DOMESTIC;
      GUIDANCE_DEFAULT].
Proof.
  unfold get_guidance.
  destruct (contains (lit "missing") (lower claim)); [now left|].
  destruct (contains (lit "fraud") (lower claim) ||
            contains (lit "cyber") (lower claim)); [right; now left|].
  destruct (contains (lit "land") (lower claim)); [do 2 right; now left|].
  destruct (contains (lit "domestic") (lower claim)); [do 3 right; now left|].
  do 4 right. now left.
Qed.

Lemma guidance_texts_have_five_steps (g : str) :
  In g [GUIDANCE_MISSING; GUIDANCE_FRAUD; GUIDANCE_LAND; GUIDANCE_DOMESTIC;
        GUIDANCE_DEFAULT] ->
  List.length (extract_action_steps g) = 5%nat /\
  List.length (split_newline (strip g)) = 5%nat.
Proof.
  intros H. repeat (destruct H as [<-|H]; [split; vm_compute; reflexivity|]).
  destruct H.
Qed.

Example missing_brother_scenario :
  forall petition response,
    hd [] (extract_action_steps
             (get_guidance petition (lit "Missing Person") response))
    = lit "- Expand Call Detail Records (CDR) to include past week.".
Proof. intros. vm_compute. reflexivity. Qed.

(** C5. For every claim label [get_guidance] returns one of the five
    texts, each of which yields exactly five steps; the text is chosen
    by the first keyword group found in the lower-cased label, in the
    order missing, fraud or cyber, land, domestic, and the default text
    when none is found; the label "land fraud" gets the fraud text,
    whose steps differ from those of the land text. *)
Theorem get_guidance_five_steps_first_match (complaint claim response : str) :
  let g := get_guidance complaint claim response in
  let c := lower claim in
  List.length (extract_action_steps g) = 5%nat /\
  List.length (split_newline (strip g)) = 5%nat /\
  (contains (lit "missing") c = true -> g = GUIDANCE_MISSING) /\
  (contains (lit "missing") c = false ->
   contains (lit "fraud") c = true \/ contains (lit "cyber") c = true ->
   g = GUIDANCE_FRAUD) /\
  (contains (lit "missing") c = false -> contains (lit "fraud") c = false ->
   contains (lit "cyber") c = false -> contains (lit "land") c = true ->
   g = GUIDANCE_LAND) /\
  (contains (lit "missing") c = false -> contains (lit "fraud") c = false ->
   contains (lit "cyber") c = false -> contains (lit "land") c = false ->
   contains (lit "domestic") c = true -> g = GUIDANCE_DOMESTIC) /\
  (contains (lit "missing") c = false -> contains (lit "fraud") c = false ->
   contains (lit "cyber") c = false -> contains (lit "land") c = false ->
   contains (lit "domestic") c = false -> g = GUIDANCE_DEFAULT) /\
  get_guidance complaint (lit "land fraud") response = GUIDANCE_FRAUD /\
  extract_action_steps GUIDANCE_FRAUD <> extract_action_steps GUIDANCE_LAND.
Proof.
  cbv zeta.
  split; [apply guidance_texts_have_five_steps, get_guidance_cases|].
  split; [apply guidance_texts_have_five_steps, get_guidance_cases|].
  unfold get_guidance.
  repeat split.
  - intros ->. reflexivity.
  - intros -> [-> | ->]; [reflexivity|]. now rewrite orb_true_r.
  - intros -> -> -> ->. reflexivity.
  - intros -> -> -> -> ->. reflexivity.
  - intros -> -> -> -> ->. reflexivity.
  - vm_compute. discriminate.
Qed.

(** C9. The text returned by [get_guidance], and the steps read from
    it, are the same for any two petition and response texts when the
    claim label is the same; the label itself matters only through its
    lower-cased form. *)
Theorem get_guidance_ignores_petition_and_response
    (p1 r1 p2 r2 claim : str) :
  get_guidance p1 claim r1 = get_guidance p2 claim r2 /\
  extract_action_steps (get_guidance p1 claim r1) =
    extract_action_steps (get_guidance p2 claim r2) /\
  (forall claim', lower claim' = lower claim ->
     get_guidance p1 claim' r1 = get_guidance p2 claim r2).
Proof.
  split; [reflexivity|]. split; [reflexivity|].
  intros claim' E. unfold get_guidance. rewrite E. reflexivity.
Qed.

(** ** Runs of the wrappers and of the handler *)

Lemma bind_ok {A B} (m : M A) (k : A -> M B) s a s' t :
  m s = (inr a, s', t) ->
  bind m k s = (result_of (k a s'), state_of (k a s'), t ++ trace_of (k a s')).
Proof.
  intros E. unfold bind, result_of, state_of, trace_of. rewrite E.
  destruct (k a s') as [[r s''] t']. reflexivity.
Qed.

Lemma for_each_emit {A} (f : A -> event) (l : list A) (s : session_state) :
  for_each (fun x => emit (f x)) l s = (inr tt, s, map f l).
Proof.
  induction l as [|x l IH]; simpl; [reflexivity|].
  rewrite (bind_ok _ _ s tt s [f x]) by reflexivity.
  rewrite IH. reflexivity.
Qed.

Lemma predict_claim_type_run (text : str) (s : session_state) :
  predict_claim_type text s =
    (inr (claim_of text), s,
     [Transform ClaimVectorizer [text]; Predict ClaimModel [claim_vectorizer text]]).
Proof. reflexivity. Qed.

Lemma predict_score_run (response : str) (s : session_state) :
  predict_score response s =
    (inr (score_of response), s,
     [Transform ScoreVectorizer [response];
      Predict ScoreModel [score_vectorizer response]]).
Proof. reflexivity. Qed.

Lemma predict_status_run (complaint claim response : str) (score : num)
    (s : session_state) :
  predict_status complaint claim response score s =
    (inr (status_model (status_vectorizer (status_blob complaint claim response)
                          ++ [score])), s,
     [Transform StatusVectorizer [status_blob complaint claim response];
      Predict StatusModel
        [status_vectorizer (status_blob complaint claim response) ++ [score]]]).
Proof. reflexivity. Qed.

Lemma generate_plan_of_action_run (g : str) (s : session_state) :
  generate_plan_of_action g s =
    (inr tt, s,
     UI (st_subheader ([129517] ++ lit " Plan of Action"))
     :: map (fun line => UI (st_markdown ([PUSHPIN] ++ lit " " ++ line)))
            (split_newline (strip g))).
Proof.
  unfold generate_plan_of_action.
  erewrite bind_ok by reflexivity.
  rewrite (for_each_emit (fun line => UI (st_markdown ([PUSHPIN] ++ lit " " ++ line)))).
  reflexivity.
Qed.

Lemma draw_use_case_diagram_dynamic_run (g : str) (s : session_state) :
  draw_use_case_diagram_dynamic g s =
    (inr tt, s,
     [UI (st_subheader ([128216] ++ lit " Dynamic Use Case Diagram"));
      (if Nat.ltb (List.length (extract_action_steps g)) 2
       then UI (st_info (lit "Not enough action steps to draw a diagram."))
       else UI (plotly_sankey (extract_action_steps g)))]).
Proof.
  unfold draw_use_case_diagram_dynamic, display_flow_with_gifs,
    plot_plan_of_action_graph.
  erewrite bind_ok by reflexivity.
  destruct (Nat.ltb (List.length (extract_action_steps g)) 2); reflexivity.
Qed.

Lemma follow_up_run (petition claim response status : str) (s : session_state) :
  (if str_eqb (lower status) (lit "closed") then
     emit (UI (st_success ([9989] ++
               lit " The case is closed. No further action required.")))
   else
     emit (UI (st_warning ([128680] ++
               lit " The case is still running. Suggesting next steps..."))) ;;
     emit (Guidance petition claim response) ;;
     (let guidance_text := get_guidance petition claim response in
      generate_plan_of_action guidance_text ;;
      draw_use_case_diagram_dynamic guidance_text ;;
      emit (UI (st_markdown (lit "##### " ++ [129517] ++
        lit " This flowchart represents the AI + Police recommended course of action based on the case inputs."))))) s
  = (inr tt, s, follow_up petition claim response status).
Proof.
  unfold follow_up.
  destruct (str_eqb (lower status) (lit "closed")); [reflexivity|].
  cbv zeta.
  erewrite bind_ok by reflexivity.
  erewrite bind_ok by reflexivity.
  erewrite bind_ok by apply generate_plan_of_action_run.
  erewrite bind_ok by apply draw_use_case_diagram_dynamic_run.
  unfold result_of, state_of, trace_of, emit; simpl fst; simpl snd.
  reflexivity.
Qed.

(** A run on two non-empty texts: the result, the state it leaves and
    the events it produces, in order. *)
Lemma analyze_case_ok (petition response : str) (s : session_state) :
  petition <> [] -> response <> [] ->
  analyze_case petition response s =
    (inr tt,
     {| cases := Some (history s ++ [record_of (petition, response)]) |},
     [Transform ClaimVectorizer [petition];
      Predict ClaimModel [claim_vectorizer petition];
      Transform ScoreVectorizer [response];
      Predict ScoreModel [score_vectorizer response];
      Transform StatusVectorizer
        [status_blob petition (claim_of petition) response];
      Predict StatusModel [status_row petition response];
      UI (st_write (lit "### " ++ [129534] ++ lit " Case Status: `"
                      ++ status_of petition response ++ lit "`"))]
     ++ follow_up petition (claim_of petition) response
                  (status_of petition response)
     ++ [UI (dashboard (history s ++ [record_of (petition, response)]))]).
Proof.
  intros Hp Hr. unfold analyze_case.
  destruct petition as [|a p']; [contradiction|].
  destruct response as [|b r']; [contradiction|].
  set (petition := a :: p'). set (response := b :: r').
  change (negb (truthy petition) || negb (truthy response)) with false.
  cbv iota.
  erewrite bind_ok by apply predict_claim_type_run.
  erewrite bind_ok by apply predict_score_run.
  erewrite bind_ok by apply predict_status_run.
  erewrite bind_ok by reflexivity.
  destruct s as [[l|]].
  - erewrite bind_ok by reflexivity. simpl negb. cbv iota.
    erewrite bind_ok by reflexivity.
    erewrite bind_ok by reflexivity.
    erewrite bind_ok by apply follow_up_run.
    reflexivity.
  - erewrite bind_ok by reflexivity. simpl negb. cbv iota.
    erewrite bind_ok by reflexivity.
    erewrite bind_ok by reflexivity.
    erewrite bind_ok by apply follow_up_run.
    reflexivity.
Qed.

Lemma analyze_case_rejected (petition response : str) (s : session_state) :
  petition = [] \/ response = [] ->
  analyze_case petition response s =
    (inr tt, s, [UI (st_error VALIDATION_MESSAGE)]).
Proof.
  intros [-> | ->]; unfold analyze_case; [reflexivity|].
  destruct petition; reflexivity.
Qed.

Lemma str_eqb_eq (a b : str) : str_eqb a b = true <-> a = b.
Proof.
  revert b. induction a as [|x a IH]; intros [|y b]; simpl;
    try (split; [discriminate | discriminate]); [tauto|].
  rewrite andb_true_iff, N.eqb_eq, IH.
  split; [intros [-> ->]; reflexivity | intros E; injection E; auto].
Qed.

Lemma filter_none {A} (f : A -> bool) (l : list A) :
  Forall (fun x => f x = false) l -> filter f l = [].
Proof.
  induction 1 as [|x l Hx Hl IH]; simpl; [reflexivity|].
  rewrite Hx. exact IH.
Qed.

Lemma guidance_calls_app (t1 t2 : list event) :
  guidance_calls (t1 ++ t2) = guidance_calls t1 ++ guidance_calls t2.
Proof.
  induction t1 as [|e t1 IH]; simpl; [reflexivity|].
  destruct e; simpl; rewrite IH; reflexivity.
Qed.

Lemma guidance_calls_UI {A} (f : A -> widget) (l : list A) :
  guidance_calls (map (fun x => UI (f x)) l) = [].
Proof. induction l; simpl; auto. Qed.

Lemma follow_up_guidance_calls (petition claim response status : str) :
  guidance_calls (follow_up petition claim response status) =
    if str_eqb (lower status) (lit "closed") then []
    else [(petition, claim, response)].
Proof.
  unfold follow_up.
  destruct (str_eqb (lower status) (lit "closed")); [reflexivity|].
  cbv zeta. rewrite !guidance_calls_app.
  rewrite (guidance_calls_UI (fun line => st_markdown ([PUSHPIN] ++ lit " " ++ line))).
  destruct (Nat.ltb (List.length (extract_action_steps
              (get_guidance petition claim response))) 2); reflexivity.
Qed.

Lemma follow_up_events (petition claim response status : str) :
  Forall (fun e => is_classifier_event e = false /\
                   is_validation_error e = false)
         (follow_up petition claim response status).
Proof.
  unfold follow_up.
  destruct (str_eqb (lower status) (lit "closed")).
  - repeat constructor.
  - cbv zeta. repeat (apply Forall_app; split).
    + repeat constructor.
    + apply Forall_forall. intros e He. apply in_map_iff in He as [line [<- _]].
      split; reflexivity.
    + destruct (Nat.ltb _ 2); repeat constructor.
Qed.

(** ** The status classifier *)

(** C6. [predict_status] joins petition, claim label and response with
    single spaces, in that order, hands that one text to the status
    vectoriser, appends the score as the last column of the feature
    row, and returns what the status model predicts for that row; it
    raises nothing and leaves the session untouched. *)
Theorem predict_status_blob_then_score
    (complaint claim response : str) (score : num) (s : session_state) :
  let blob := complaint ++ [SPACE] ++ claim ++ [SPACE] ++ response in
  let row := status_vectorizer blob in
  predict_status complaint claim response score s =
    (inr (status_model (row ++ [score])), s,
     [Transform StatusVectorizer [blob];
      Predict StatusModel [row ++ [score]]]) /\
  List.length (row ++ [score]) = S (List.length row) /\
  nth_error (row ++ [score]) (List.length row) = Some score /\
  firstn (List.length row) (row ++ [score]) = row.
Proof.
  cbv zeta. split; [apply predict_status_run|].
  split; [rewrite length_app, Nat.add_comm; reflexivity|].
  split.
  - rewrite nth_error_app2 by apply Nat.le_refl.
    rewrite Nat.sub_diag. reflexivity.
  - rewrite firstn_app, Nat.sub_diag, firstn_all. simpl. apply app_nil_r.
Qed.

(** ** The handler *)

(** C1. A run of the handler shows the validation error exactly when
    the petition or the response is empty.  In that case the error is
    the only event, so no vectoriser or model is called, and the
    session is left as it was.  On two non-empty texts the run raises
    nothing and appends one record whose keys are Petition, Claim,
    Response, Score and Status, holding the two texts and the three
    predictions. *)
Theorem analyze_case_validation (petition response : str) (s : session_state) :
  let run := analyze_case petition response s in
  ((petition = [] \/ response = []) <->
   Exists (fun e => is_validation_error e = true) (trace_of run)) /\
  ((petition = [] \/ response = []) ->
   trace_of run = [UI (st_error VALIDATION_MESSAGE)] /\
   filter is_classifier_event (trace_of run) = [] /\
   state_of run = s) /\
  (petition <> [] /\ response <> [] ->
   result_of run = inr tt /\
   cases (state_of run) =
     Some (history s ++ [record_of (petition, response)]) /\
   map fst (record_of (petition, response)) =
     [lit "Petition"; lit "Claim"; lit "Response"; lit "Score"; lit "Status"] /\
   map snd (record_of (petition, response)) =
     [VStr petition; VStr (claim_of petition); VStr response;
      VNum (score_of response); VStr (status_of petition response)]).
Proof.
  cbv zeta. split; [|split].
  - split.
    + intros H. rewrite (analyze_case_rejected _ _ s H).
      left. reflexivity.
    + intros H.
      destruct petition as [|a p']; [now left|].
      destruct response as [|b r']; [now right|].
      exfalso.
      rewrite analyze_case_ok in H by discriminate.
      cbv beta iota delta [trace_of snd] in H.
      rewrite !Exists_app in H.
      destruct H as [H | [H | H]].
      * repeat (apply Exists_cons in H as [H|H]; [discriminate H|]).
        inversion H.
      * apply Exists_exists in H as [e [He Hv]].
        pose proof (follow_up_events (a :: p') (claim_of (a :: p')) (b :: r')
                      (status_of (a :: p') (b :: r'))) as F.
        rewrite Forall_forall in F. destruct (F e He) as [_ F2]. congruence.
      * apply Exists_cons in H as [H|H]; [discriminate H | inversion H].
  - intros H. rewrite (analyze_case_rejected _ _ s H).
    repeat split.
  - intros [Hp Hr]. rewrite (analyze_case_ok _ _ s Hp Hr).
    repeat split.
Qed.

Lemma is_transform_classifier (e : event) :
  is_classifier_event e = false -> is_transform e = false.
Proof. destruct e; simpl; congruence. Qed.

Lemma follow_up_no_classifier (petition claim response status : str) :
  Forall (fun e => is_classifier_event e = false)
         (follow_up petition claim response status).
Proof.
  eapply Forall_impl; [|apply follow_up_events]. intros e [H _]. exact H.
Qed.

(** C2 (as the code has it). On two non-empty texts the three
    vectorisers are called once each, in the order claim, score,
    status, and receive the texts as entered: the petition, the
    response, and the petition, the predicted claim label and the
    response joined by single spaces.  [preprocess_text] is applied to
    none of them. *)
Theorem vectorizers_receive_raw_text (petition response : str) (s : session_state) :
  petition <> [] -> response <> [] ->
  filter is_transform (trace_of (analyze_case petition response s)) =
    [Transform ClaimVectorizer [petition];
     Transform ScoreVectorizer [response];
     Transform StatusVectorizer
       [petition ++ [SPACE] ++ claim_of petition ++ [SPACE] ++ response]].
Proof.
  intros Hp Hr. rewrite (analyze_case_ok _ _ s Hp Hr).
  cbv beta iota delta [trace_of snd].
  rewrite !filter_app.
  rewrite (filter_none is_transform (follow_up _ _ _ _)).
  - reflexivity.
  - eapply Forall_impl; [|apply follow_up_no_classifier].
    apply is_transform_classifier.
Qed.

Lemma lower_from_ascii (whole s : str) :
  Forall (fun c => c < 128) s ->
  forall i, lower_from whole i s = map ascii_lower s.
Proof.
  induction 1 as [|c t Hc Ht IH]; intros i; simpl; [reflexivity|].
  unfold lower_ucs4. apply N.ltb_lt in Hc. rewrite Hc. simpl.
  now rewrite IH.
Qed.

Lemma ascii_lower_ge (c : N) : c <= ascii_lower c.
Proof. unfold ascii_lower. destruct (is_ascii_upper c); lia. Qed.

(** A status that spells "closed" in any mix of ASCII capitals and
    small letters lowers to "closed". *)
Lemma lower_any_case_closed (status : str) :
  map ascii_lower status = lit "closed" -> lower status = lit "closed".
Proof.
  intros E. unfold lower. rewrite lower_from_ascii; [exact E|].
  apply Forall_forall. intros c Hc.
  apply (in_map ascii_lower) in Hc. rewrite E in Hc.
  pose proof (ascii_lower_ge c) as G.
  simpl in Hc.
  repeat (destruct Hc as [Hc|Hc]; [rewrite <- Hc in G; lia|]).
  destruct Hc.
Qed.

(** C7. On two non-empty texts the run first calls the claim
    vectoriser and model, then the score vectoriser and model, then
    the status vectoriser and model, the latter two on the predicted
    claim and score; no classifier is called afterwards.
    [get_guidance] is called once, on the petition, the predicted
    claim and the response, when the lower-cased status differs from
    "closed", and not at all when it equals "closed", in particular
    for any ASCII capitalisation of "closed". *)
Theorem guidance_only_when_not_closed (petition response : str) (s : session_state) :
  petition <> [] -> response <> [] ->
  let t := trace_of (analyze_case petition response s) in
  let claim := claim_of petition in
  let score := score_of response in
  let status := status_of petition response in
  (exists rest,
     t = [Transform ClaimVectorizer [petition];
          Predict ClaimModel [claim_vectorizer petition];
          Transform ScoreVectorizer [response];
          Predict ScoreModel [score_vectorizer response];
          Transform StatusVectorizer [status_blob petition claim response];
          Predict StatusModel
            [status_vectorizer (status_blob petition claim response) ++ [score]]]
         ++ rest /\
     filter is_classifier_event rest = [] /\
     guidance_calls rest = guidance_calls t) /\
  (lower status <> lit "closed" ->
   guidance_calls t = [(petition, claim, response)]) /\
  (lower status = lit "closed" -> guidance_calls t = []) /\
  (map ascii_lower status = lit "closed" -> guidance_calls t = []).
Proof.
  intros Hp Hr. cbv zeta. rewrite (analyze_case_ok _ _ s Hp Hr).
  cbv beta iota delta [trace_of snd].
  assert (G : guidance_calls
            ([Transform ClaimVectorizer [petition];
              Predict ClaimModel [claim_vectorizer petition];
              Transform ScoreVectorizer [response];
              Predict ScoreModel [score_vectorizer response];
              Transform StatusVectorizer
                [status_blob petition (claim_of petition) response];
              Predict StatusModel [status_row petition response];
              UI (st_write (lit "### " ++ [129534] ++ lit " Case Status: `"
                              ++ status_of petition response ++ lit "`"))]
             ++ follow_up petition (claim_of petition) response
                  (status_of petition response)
             ++ [UI (dashboard (history s ++ [record_of (petition, response)]))])
          = if str_eqb (lower (status_of petition response)) (lit "closed")
            then [] else [(petition, claim_of petition, response)]).
  { rewrite !guidance_calls_app, follow_up_guidance_calls.
    destruct (str_eqb _ _); reflexivity. }
  split; [|split; [|split]].
  - eexists. split; [|split].
    + change (?a :: ?b :: ?c :: ?d :: ?e :: ?f :: ?g :: nil)
        with ([a; b; c; d; e; f] ++ [g]).
      rewrite <- app_assoc. reflexivity.
    + rewrite !filter_app.
      rewrite (filter_none _ _ (follow_up_no_classifier _ _ _ _)).
      reflexivity.
    + rewrite G, !guidance_calls_app, follow_up_guidance_calls.
      destruct (str_eqb _ _); reflexivity.
  - intros Hne. rewrite G.
    destruct (str_eqb _ _) eqn:E; [|reflexivity].
    apply str_eqb_eq in E. contradiction.
  - intros He. rewrite G.
    apply str_eqb_eq in He. rewrite He. reflexivity.
  - intros He. rewrite G.
    apply lower_any_case_closed, str_eqb_eq in He. rewrite He. reflexivity.
Qed.

(** ** The session history *)

Lemma truthy_nonempty (x : str) : truthy x = true -> x <> [].
Proof. destruct x; [discriminate | discriminate]. Qed.

Lemma truthy_empty (x : str) : truthy x = false -> x = [].
Proof. destruct x; [reflexivity | discriminate]. Qed.

(** One run either leaves the history as it is or adds one record at
    its end. *)
Lemma analyze_case_history (petition response : str) (s : session_state) :
  history (state_of (analyze_case petition response s)) =
    history s ++ (if successful (petition, response)
                  then [record_of (petition, response)] else []).
Proof.
  unfold successful. simpl fst. simpl snd.
  destruct (truthy petition) eqn:Ep; [destruct (truthy response) eqn:Er|].
  - rewrite analyze_case_ok by (apply truthy_nonempty; assumption).
    reflexivity.
  - rewrite analyze_case_rejected by (right; apply truthy_empty; assumption).
    simpl. symmetry. apply app_nil_r.
  - rewrite analyze_case_rejected by (left; apply truthy_empty; assumption).
    simpl. symmetry. apply app_nil_r.
Qed.

Lemma run_calls_history (calls : list (str * str)) :
  forall s, history (run_calls calls s) =
            history s ++ map record_of (filter successful calls).
Proof.
  induction calls as [|[petition response] rest IH]; intros s; simpl.
  - symmetry. apply app_nil_r.
  - rewrite IH, analyze_case_history.
    destruct (successful (petition, response)); simpl.
    + rewrite <- app_assoc. reflexivity.
    + rewrite app_nil_r. reflexivity.
Qed.

Lemma has_status_record_of (label : str) (call : str * str) :
  has_status label (record_of call) =
    str_eqb (status_of (fst call) (snd call)) label.
Proof. destruct call as [petition response]. reflexivity. Qed.








(** * Further properties of the code *)

(** ** The normaliser on ordinary text *)

Lemma ascii_lower_backslash (c : N) : ascii_lower c = BACKSLASH -> c = BACKSLASH.
Proof.
  unfold ascii_lower, is_ascii_upper, in_range, chr, BACKSLASH. simpl.
  destruct ((65 <=? c) && (c <=? 90)) eqn:E; [|auto].
  apply andb_true_iff in E as [E1 E2]. apply N.leb_le in E1, E2. lia.
Qed.

Lemma sub_backslash_s_no_backslash (text : str) :
  ~ In BACKSLASH text -> sub_backslash_s_from false text = text.
Proof.
  induction text as [|c t IH]; intros H; simpl; [reflexivity|].
  destruct (c =? BACKSLASH) eqn:E.
  - apply N.eqb_eq in E. exfalso. apply H. left. auto.
  - simpl. rewrite IH; [reflexivity|]. intros I. apply H. right. exact I.
Qed.

Lemma lstrip_by_none (p : N -> bool) (s : str) :
  Forall (fun c => p c = false) s -> lstrip_by p s = s.
Proof. destruct 1 as [|c t Hc _]; simpl; [reflexivity|]. now rewrite Hc. Qed.

Lemma strip_by_none (p : N -> bool) (s : str) :
  Forall (fun c => p c = false) s -> strip_by p s = s.
Proof.
  intros H. unfold strip_by, rstrip_by.
  rewrite (lstrip_by_none p s H).
  rewrite lstrip_by_none by (apply Forall_rev; exact H).
  apply rev_involutive.
Qed.

Lemma alnum_not_space (c : N) :
  is_ascii_lower c || is_ascii_digit c = true -> isspace c = false.
Proof.
  unfold is_ascii_lower, is_ascii_digit, isspace, in_range, chr. simpl.
  intros H.
  assert (R : 48 <= c <= 122).
  { apply orb_true_iff in H as [H|H]; apply andb_true_iff in H as [H1 H2];
      apply N.leb_le in H1, H2; lia. }
  repeat (apply orb_false_iff; split);
    first [ apply N.eqb_neq; lia
          | apply andb_false_iff; left; apply N.leb_gt; lia
          | apply andb_false_iff; right; apply N.leb_gt; lia ].
Qed.

Lemma alnum_fixed (c : N) :
  is_ascii_lower c || is_ascii_digit c = true ->
  c < 128 /\ c <> BACKSLASH /\ ascii_lower c = c /\ in_kept_class c = true.
Proof.
  intros H.
  assert (K : in_kept_class c = true).
  { unfold in_kept_class.
    apply orb_true_iff in H as [H|H]; rewrite H; simpl;
      rewrite ?orb_true_r; reflexivity. }
  assert (R : (48 <= c <= 57) \/ (97 <= c <= 122)).
  { unfold is_ascii_lower, is_ascii_digit, in_range, chr in H. simpl in H.
    apply orb_true_iff in H as [H|H]; apply andb_true_iff in H as [H1 H2];
      apply N.leb_le in H1, H2; lia. }
  assert (U : is_ascii_upper c = false).
  { unfold is_ascii_upper, in_range, chr. simpl.
    apply andb_false_iff. destruct R; [left | right]; apply N.leb_gt; lia. }
  unfold ascii_lower, BACKSLASH. rewrite U.
  repeat split; try lia. exact K.
Qed.

Lemma kept_class_after_lower (c : N) :
  c <> BACKSLASH ->
  in_kept_class (ascii_lower c) =
    is_ascii_lower (ascii_lower c) || is_ascii_digit (ascii_lower c).
Proof.
  intros H. unfold in_kept_class. rewrite ascii_lower_not_upper.
  assert (B : (ascii_lower c =? BACKSLASH) = false).
  { apply N.eqb_neq. intros E. apply H, ascii_lower_backslash, E. }
  rewrite B, orb_false_r. simpl.
  destruct (ascii_lower c =? LETTER_s) eqn:S; [|now rewrite !orb_false_r].
  apply N.eqb_eq in S. rewrite S. reflexivity.
Qed.

Lemma filter_all {A} (f : A -> bool) (l : list A) :
  Forall (fun x => f x = true) l -> filter f l = l.
Proof.
  induction 1 as [|x l Hx Hl IH]; simpl; [reflexivity|].
  rewrite Hx, IH. reflexivity.
Qed.

Lemma preprocess_text_plain (text : str) :
  Forall (fun c => c < 128) text -> ~ In BACKSLASH text ->
  preprocess_text text =
    filter (fun c => is_ascii_lower c || is_ascii_digit c) (map ascii_lower text).
Proof.
  intros Hascii Hbs. unfold preprocess_text, lower, sub_outside_class.
  rewrite (lower_from_ascii text text Hascii).
  assert (E : filter in_kept_class (map ascii_lower text) =
              filter (fun c => is_ascii_lower c || is_ascii_digit c)
                     (map ascii_lower text)).
  { apply filter_ext_in. intros c' Hc'.
    apply in_map_iff in Hc' as [c [<- Hc]].
    apply kept_class_after_lower. intros ->. exact (Hbs Hc). }
  rewrite E.
  set (F := filter _ (map ascii_lower text)).
  assert (HF : Forall (fun c => is_ascii_lower c || is_ascii_digit c = true) F).
  { apply Forall_forall. intros c Hc. apply filter_In in Hc. apply Hc. }
  unfold sub_backslash_s. rewrite sub_backslash_s_no_backslash.
  - apply strip_by_none. eapply Forall_impl; [|exact HF].
    intros c. apply alnum_not_space.
  - intros I. rewrite Forall_forall in HF.
    destruct (alnum_fixed _ (HF _ I)) as (_ & N & _). now apply N.
Qed.

(** X1. On a text of ASCII characters without a backslash
    [preprocess_text] returns its letters and digits, lower-cased and in
    order, and nothing else: the result holds no whitespace, so words are
    run together, and normalising it again changes nothing. *)
Theorem preprocess_text_on_plain_ascii (text : str) :
  Forall (fun c => c < 128) text -> ~ In BACKSLASH text ->
  preprocess_text text =
    filter (fun c => is_ascii_lower c || is_ascii_digit c) (map ascii_lower text) /\
  Forall (fun c => isspace c = false) (preprocess_text text) /\
  preprocess_text (preprocess_text text) = preprocess_text text.
Proof.
  intros Hascii Hbs.
  pose proof (preprocess_text_plain text Hascii Hbs) as E.
  assert (HF : Forall (fun c => is_ascii_lower c || is_ascii_digit c = true)
                      (preprocess_text text)).
  { rewrite E. apply Forall_forall. intros c Hc. apply filter_In in Hc. apply Hc. }
  split; [exact E|]. split.
  - eapply Forall_impl; [|exact HF]. intros c. apply alnum_not_space.
  - rewrite preprocess_text_plain.
    + assert (M : map ascii_lower (preprocess_text text) = preprocess_text text).
      { rewrite <- (map_id (preprocess_text text)) at 2.
        apply map_ext_in. intros c Hc. rewrite Forall_forall in HF.
        apply (alnum_fixed _ (HF _ Hc)). }
      rewrite M. apply filter_all. exact HF.
    + eapply Forall_impl; [|exact HF]. intros c Hc. apply (alnum_fixed _ Hc).
    + intros I. rewrite Forall_forall in HF.
      destruct (alnum_fixed _ (HF _ I)) as (_ & N & _). now apply N.
Qed.

Lemma contains_backslash_s_cons (c : N) (t : str) :
  contains [BACKSLASH; LETTER_s] (c :: t) =
    ((c =? BACKSLASH) && next_is_s t) || contains [BACKSLASH; LETTER_s] t.
Proof.
  change (contains [BACKSLASH; LETTER_s] (c :: t)) with
    (startswith [BACKSLASH; LETTER_s] (c :: t) ||
     contains [BACKSLASH; LETTER_s] t).
  f_equal.
  change (startswith [BACKSLASH; LETTER_s] (c :: t)) with
    ((BACKSLASH =? c) && startswith [LETTER_s] t).
  rewrite (N.eqb_sym BACKSLASH c). f_equal.
  destruct t as [|b t']; [reflexivity|].
  change (startswith [LETTER_s] (b :: t')) with ((LETTER_s =? b) && true).
  rewrite andb_true_r. apply N.eqb_sym.
Qed.

Lemma sub_backslash_s_from_head (rest : str) :
  next_is_s rest = false ->
  next_is_s (sub_backslash_s_from false rest) = false.
Proof.
  destruct rest as [|c t]; simpl; [reflexivity|]. intros H.
  destruct ((c =? BACKSLASH) && next_is_s t); [reflexivity | exact H].
Qed.

Lemma sub_backslash_s_from_complete (text : str) :
  forall in_match,
    contains [BACKSLASH; LETTER_s] (sub_backslash_s_from in_match text) = false.
Proof.
  induction text as [|c t IH]; intros in_match; [reflexivity|].
  simpl sub_backslash_s_from.
  destruct (in_match && (c =? LETTER_s)); [apply IH|].
  destruct ((c =? BACKSLASH) && next_is_s t) eqn:E;
    rewrite contains_backslash_s_cons, IH, orb_false_r.
  - reflexivity.
  - apply andb_false_iff in E as [E|E]; [now rewrite E|].
    rewrite (sub_backslash_s_from_head t E). apply andb_false_r.
Qed.

Lemma contains_suffix (needle pre l : str) :
  contains needle (pre ++ l) = false -> contains needle l = false.
Proof.
  induction pre as [|a pre IH]; simpl app; [auto|].
  intros H. apply IH. simpl in H. apply orb_false_iff in H. apply H.
Qed.

Lemma contains_backslash_s_prefix (l post : str) :
  contains [BACKSLASH; LETTER_s] (l ++ post) = false ->
  contains [BACKSLASH; LETTER_s] l = false.
Proof.
  induction l as [|c t IH]; [reflexivity|].
  simpl app. rewrite !contains_backslash_s_cons. intros H.
  apply orb_false_iff in H as [H1 H2]. rewrite (IH H2), orb_false_r.
  apply andb_false_iff in H1 as [H1|H1]; [now rewrite H1|].
  destruct t as [|b t']; [apply andb_false_r|].
  simpl in H1. simpl. rewrite H1. apply andb_false_r.
Qed.

Lemma strip_by_keeps_absence (p : N -> bool) (s : str) :
  contains [BACKSLASH; LETTER_s] s = false ->
  contains [BACKSLASH; LETTER_s] (strip_by p s) = false.
Proof.
  intros H. unfold strip_by.
  destruct (lstrip_by_suffix p s) as [pre E].
  destruct (rstrip_by_prefix p (lstrip_by p s)) as [post F].
  rewrite E in H. apply contains_suffix in H. rewrite F in H.
  exact (contains_backslash_s_prefix _ _ H).
Qed.

Lemma sub_backslash_s_nothing_to_do (text : str) :
  contains [BACKSLASH; LETTER_s] text = false ->
  sub_backslash_s_from false text = text.
Proof.
  induction text as [|c t IH]; [reflexivity|].
  rewrite contains_backslash_s_cons. intros H.
  apply orb_false_iff in H as [H1 H2].
  simpl. rewrite H1, (IH H2). reflexivity.
Qed.

(** X2. Whatever the input, the result of [preprocess_text] holds no
    backslash that is directly followed by an s: the second substitution
    has replaced every such pair, stripping creates none, and
    substituting once more leaves the result as it is. *)
Theorem preprocess_text_no_backslash_s (text : str) :
  contains (lit "\s") (preprocess_text text) = false /\
  sub_backslash_s (preprocess_text text) = preprocess_text text.
Proof.
  assert (H : contains [BACKSLASH; LETTER_s] (preprocess_text text) = false).
  { unfold preprocess_text, strip, sub_backslash_s.
    apply strip_by_keeps_absence, sub_backslash_s_from_complete. }
  split; [exact H|].
  apply sub_backslash_s_nothing_to_do, H.
Qed.

Lemma sub_backslash_s_from_length (text : str) :
  forall in_match,
    (List.length (sub_backslash_s_from in_match text) <= List.length text)%nat.
Proof.
  induction text as [|c t IH]; intros in_match; simpl; [lia|].
  destruct (in_match && (c =? LETTER_s)); [specialize (IH true); lia|].
  destruct ((c =? BACKSLASH) && next_is_s t); simpl;
    [specialize (IH true) | specialize (IH false)]; lia.
Qed.

Lemma lstrip_by_length (p : N -> bool) (s : str) :
  (List.length (lstrip_by p s) <= List.length s)%nat.
Proof.
  induction s as [|c t IH]; simpl; [lia|]. destruct (p c); simpl; lia.
Qed.

Lemma strip_by_length (p : N -> bool) (s : str) :
  (List.length (strip_by p s) <= List.length s)%nat.
Proof.
  unfold strip_by, rstrip_by. rewrite length_rev.
  pose proof (lstrip_by_length p (rev (lstrip_by p s))) as A.
  rewrite length_rev in A.
  pose proof (lstrip_by_length p s). lia.
Qed.

(** X3. [preprocess_text] never returns more characters than the
    lower-cased text has, and on an ASCII text never more than the text
    itself. *)
Theorem preprocess_text_length (text : str) :
  (List.length (preprocess_text text) <= List.length (lower text))%nat /\
  (Forall (fun c => c < 128) text ->
   (List.length (preprocess_text text) <= List.length text)%nat).
Proof.
  assert (A : (List.length (preprocess_text text) <= List.length (lower text))%nat).
  { unfold preprocess_text, strip, sub_backslash_s, sub_outside_class.
    pose proof (strip_by_length isspace
                  (sub_backslash_s_from false (filter in_kept_class (lower text)))).
    pose proof (sub_backslash_s_from_length
                  (filter in_kept_class (lower text)) false).
    pose proof (filter_length_le in_kept_class (lower text)). lia. }
  split; [exact A|].
  intros Hascii. unfold lower in A.
  rewrite (lower_from_ascii text text Hascii), length_map in A. exact A.
Qed.

(** ** The guidance resolver, read backwards *)

Ltac distinct_texts :=
  match goal with
  | H : _ = _ |- _ => vm_compute in H; discriminate H
  end.

(** X4. The text that [get_guidance] returns tells which rule fired: the
    missing-person text is returned exactly for labels whose lower-cased
    form contains "missing", the fraud text exactly for those without
    "missing" but with "fraud" or "cyber", and so on down to the default
    text, returned exactly when none of the five keywords occurs. *)
Theorem get_guidance_text_identifies_rule (complaint claim response : str) :
  let g := get_guidance complaint claim response in
  let c := lower claim in
  (g = GUIDANCE_MISSING <-> contains (lit "missing") c = true) /\
  (g = GUIDANCE_FRAUD <->
     contains (lit "missing") c = false /\
     (contains (lit "fraud") c = true \/ contains (lit "cyber") c = true)) /\
  (g = GUIDANCE_LAND <->
     contains (lit "missing") c = false /\ contains (lit "fraud") c = false /\
     contains (lit "cyber") c = false /\ contains (lit "land") c = true) /\
  (g = GUIDANCE_DOMESTIC <->
     contains (lit "missing") c = false /\ contains (lit "fraud") c = false /\
     contains (lit "cyber") c = false /\ contains (lit "land") c = false /\
     contains (lit "domestic") c = true) /\
  (g = GUIDANCE_DEFAULT <->
     contains (lit "missing") c = false /\ contains (lit "fraud") c = false /\
     contains (lit "cyber") c = false /\ contains (lit "land") c = false /\
     contains (lit "domestic") c = false).
Proof.
  cbv zeta. unfold get_guidance.
  destruct (contains (lit "missing") (lower claim));
    [|destruct (contains (lit "fraud") (lower claim));
      destruct (contains (lit "cyber") (lower claim));
      [| | |destruct (contains (lit "land") (lower claim));
            [|destruct (contains (lit "domestic") (lower claim))]]];
    cbn [orb];
    repeat split; intros;
    repeat match goal with
           | H : _ /\ _ |- _ => destruct H
           | H : _ \/ _ |- _ => destruct H
           end;
    try reflexivity; try discriminate; auto; try distinct_texts.
Qed.

Lemma lower_from_app (whole a b : str) :
  forall i, lower_from whole i (a ++ b) =
            lower_from whole i a ++ lower_from whole (i + List.length a) b.
Proof.
  induction a as [|c a IH]; intros i; simpl.
  - now rewrite Nat.add_0_r.
  - rewrite IH, <- app_assoc, Nat.add_succ_r. reflexivity.
Qed.

Lemma ascii_before_lower (w : str) :
  Forall (fun c => c < 128) (map ascii_lower w) -> Forall (fun c => c < 128) w.
Proof.
  intros H. apply Forall_forall. intros c Hc.
  rewrite Forall_forall in H.
  pose proof (H _ (in_map ascii_lower _ _ Hc)).
  pose proof (ascii_lower_ge c). lia.
Qed.

Lemma startswith_app (n rest : str) : startswith n (n ++ rest) = true.
Proof.
  induction n as [|a n IH]; simpl; [reflexivity|].
  rewrite N.eqb_refl. exact IH.
Qed.

Lemma contains_inside (n pre post : str) : contains n (pre ++ n ++ post) = true.
Proof.
  induction pre as [|a pre IH]; simpl app.
  - destruct (n ++ post) eqn:E; simpl; rewrite <- E, startswith_app; reflexivity.
  - simpl. rewrite IH. apply orb_true_r.
Qed.

(** X5. A claim label that spells "missing" somewhere, in any mix of
    capitals and small letters and whatever surrounds it, gets the
    missing-person guidance. *)
Theorem get_guidance_missing_any_case (complaint response pre w post : str) :
  map ascii_lower w = lit "missing" ->
  get_guidance complaint (pre ++ w ++ post) response = GUIDANCE_MISSING.
Proof.
  intros E. unfold get_guidance, lower.
  rewrite !lower_from_app.
  rewrite (lower_from_ascii _ w).
  - rewrite E, contains_inside. reflexivity.
  - apply ascii_before_lower. rewrite E. repeat constructor.
Qed.

(** ** Steps, lines and the links of the chart *)

Lemma lstrip_by_all (p : N -> bool) (s : str) :
  Forall (fun c => p c = true) s -> lstrip_by p s = [].
Proof.
  induction 1 as [|c t Hc Ht IH]; simpl; [reflexivity|]. now rewrite Hc.
Qed.

(** X6. Every step that [extract_action_steps] returns is trimmed: it
    neither starts nor ends with whitespace.  There are at most as many
    steps as lines in the stripped text, and a text of whitespace only
    yields no step at all. *)
Theorem extract_action_steps_trimmed (text : str) :
  (forall step, In step (extract_action_steps text) ->
     (forall c rest, step = c :: rest -> isspace c = false) /\
     (forall init c, step = init ++ [c] -> isspace c = false)) /\
  (List.length (extract_action_steps text) <=
   List.length (split_newline (strip text)))%nat /\
  (Forall (fun c => isspace c = true) text -> extract_action_steps text = []).
Proof.
  unfold extract_action_steps. split; [|split].
  - intros step H. apply in_map_iff in H as [line [<- _]]. split.
    + intros c rest E. exact (strip_by_head _ _ _ _ E).
    + intros init c E. exact (strip_by_last _ _ _ _ E).
  - rewrite length_map. apply filter_length_le.
  - intros H.
    assert (E : strip text = [])
      by (unfold strip, strip_by; rewrite (lstrip_by_all isspace text H);
          reflexivity).
    rewrite E. reflexivity.
Qed.

Lemma split_newline_nonempty (s : str) : split_newline s <> [].
Proof.
  destruct s as [|c t]; simpl; [discriminate|].
  destruct (c =? NEWLINE); [discriminate|].
  destruct (split_newline t); discriminate.
Qed.

Lemma join_newline_cons (piece : str) (rest : list str) :
  rest <> [] ->
  join_newline (piece :: rest) = piece ++ [NEWLINE] ++ join_newline rest.
Proof. destruct rest; [contradiction | reflexivity]. Qed.

Lemma join_split_newline (s : str) : join_newline (split_newline s) = s.
Proof.
  induction s as [|c t IH]; [reflexivity|]. simpl split_newline.
  destruct (c =? NEWLINE) eqn:E.
  - apply N.eqb_eq in E. subst c.
    rewrite join_newline_cons by apply split_newline_nonempty.
    rewrite IH. reflexivity.
  - pose proof (split_newline_nonempty t) as NE.
    destruct (split_newline t) as [|piece pieces]; [contradiction|].
    destruct pieces as [|q pieces].
    + simpl in *. now rewrite IH.
    + rewrite join_newline_cons by discriminate.
      rewrite join_newline_cons in IH by discriminate.
      simpl. simpl in IH. now rewrite IH.
Qed.

Lemma split_newline_length (s : str) :
  List.length (split_newline s) = S (count_occ N.eq_dec s NEWLINE).
Proof.
  induction s as [|c t IH]; [reflexivity|]. simpl split_newline.
  destruct (N.eqb_spec c NEWLINE) as [->|NE].
  - rewrite count_occ_cons_eq by reflexivity. simpl. now rewrite IH.
  - rewrite count_occ_cons_neq by exact NE.
    pose proof (split_newline_nonempty t).
    destruct (split_newline t); [contradiction | exact IH].
Qed.

Lemma split_newline_pieces (s : str) :
  Forall (fun piece => ~ In NEWLINE piece) (split_newline s).
Proof.
  induction s as [|c t IH]; simpl.
  - constructor; [intros [] | constructor].
  - destruct (N.eqb_spec c NEWLINE) as [->|NE].
    + constructor; [intros [] | exact IH].
    + destruct (split_newline t) as [|piece pieces]; [repeat constructor|].
      * intros [E|[]]. now apply NE.
      * inversion IH as [|? ? Hp Hps]. constructor; [|exact Hps].
        intros [E|I]; [now apply NE | now apply Hp].
Qed.

(** X7. [generate_plan_of_action] raises nothing, leaves the session as
    it is and shows the heading followed by one bullet per line of the
    stripped guidance text: one more bullet than the stripped text has
    newlines, so even an empty text gives one (empty) bullet.  No line
    holds a newline, and the lines joined by newlines give the stripped
    text back. *)
Theorem generate_plan_of_action_lines (guidance_text : str) (s : session_state) :
  let lines := split_newline (strip guidance_text) in
  generate_plan_of_action guidance_text s =
    (inr tt, s,
     UI (st_subheader ([129517] ++ lit " Plan of Action"))
     :: map (fun line => UI (st_markdown ([PUSHPIN] ++ lit " " ++ line))) lines) /\
  List.length lines = S (count_occ N.eq_dec (strip guidance_text) NEWLINE) /\
  Forall (fun line => ~ In NEWLINE line) lines /\
  join_newline lines = strip guidance_text.
Proof.
  cbv zeta. split; [apply generate_plan_of_action_run|].
  split; [apply split_newline_length|].
  split; [apply split_newline_pieces | apply join_split_newline].
Qed.

(** X8. The links of the chart join each step to the next one: for a
    list of n steps there are n - 1 links (none for an empty list), the
    i-th from node i to node i + 1 with value 1, and every node index
    lies within the list of steps. *)
Theorem sankey_links_form_a_chain (steps : list str) :
  let n := List.length steps in
  List.length (sankey_source steps) = (n - 1)%nat /\
  List.length (sankey_target steps) = (n - 1)%nat /\
  List.length (sankey_value steps) = (n - 1)%nat /\
  (forall i, (i < n - 1)%nat ->
     nth_error (sankey_source steps) i = Some (Z.of_nat i) /\
     nth_error (sankey_target steps) i = Some (Z.of_nat i + 1)%Z /\
     nth_error (sankey_value steps) i = Some 1%Z) /\
  Forall (fun j => (0 <= j < len steps)%Z)
         (sankey_source steps ++ sankey_target steps).
Proof.
  cbv zeta.
  assert (S1 : Z.to_nat (len steps - 1 - 0) = (List.length steps - 1)%nat)
    by (unfold len; lia).
  assert (T1 : Z.to_nat (len steps - 1) = (List.length steps - 1)%nat)
    by (unfold len; lia).
  assert (L1 : List.length (sankey_source steps) = (List.length steps - 1)%nat).
  { unfold sankey_source, py_range. rewrite length_map, length_seq. exact S1. }
  split; [exact L1|]. split; [|split; [|split]].
  - unfold sankey_target, py_range. rewrite length_map, length_seq. exact T1.
  - unfold sankey_value. rewrite repeat_length. unfold len at 1.
    rewrite L1. lia.
  - intros i Hi. unfold sankey_source, sankey_target, sankey_value, py_range.
    rewrite !nth_error_map, !nth_error_seq, S1, T1.
    apply Nat.ltb_lt in Hi. rewrite Hi. cbn [option_map Nat.add].
    split; [f_equal; lia|]. split; [f_equal; lia|].
    + apply nth_error_repeat.
      fold (py_range 0 (len steps - 1)). fold (sankey_source steps).
      unfold len at 1. rewrite L1. apply Nat.ltb_lt in Hi. lia.
  - apply Forall_app. unfold sankey_source, sankey_target, py_range.
    split; apply Forall_forall; intros j Hj;
      apply in_map_iff in Hj as [i [<- Hi]]; apply in_seq in Hi;
      unfold len in *; lia.
Qed.

(** ** What a run of the handler shows *)

Lemma follow_up_closed (petition claim response status : str) :
  lower status = lit "closed" ->
  follow_up petition claim response status =
    [UI (st_success ([9989] ++
           lit " The case is closed. No further action required."))].
Proof.
  intros E. unfold follow_up. apply str_eqb_eq in E. rewrite E. reflexivity.
Qed.

Lemma follow_up_running (petition claim response status : str) :
  lower status <> lit "closed" ->
  follow_up petition claim response status =
    [UI (st_warning ([128680] ++
           lit " The case is still running. Suggesting next steps..."));
     Guidance petition claim response;
     UI (st_subheader ([129517] ++ lit " Plan of Action"))]
    ++ map (fun line => UI (st_markdown ([PUSHPIN] ++ lit " " ++ line)))
           (split_newline (strip (get_guidance petition claim response)))
    ++ [UI (st_subheader ([128216] ++ lit " Dynamic Use Case Diagram"));
        UI (plotly_sankey
              (extract_action_steps (get_guidance petition claim response)));
        UI (st_markdown (lit "##### " ++ [129517] ++
          lit " This flowchart represents the AI + Police recommended course of action based on the case inputs."))].
Proof.
  intros NE. unfold follow_up.
  destruct (str_eqb (lower status) (lit "closed")) eqn:E;
    [apply str_eqb_eq in E; contradiction|].
  cbv zeta.
  destruct (guidance_texts_have_five_steps _
              (get_guidance_cases petition claim response)) as [L _].
  rewrite L. reflexivity.
Qed.

(** X9. On two non-empty texts the run never shows the "not enough
    steps" notice.  When the lower-cased status differs from "closed" it
    shows the five lines of the guidance for the predicted claim as
    bullets and draws the chart from its five steps; when it equals
    "closed" it shows no chart of steps, no bullet of a plan (no line
    led by the pushpin) and no "Plan of Action" heading. *)
Theorem plan_of_action_rendering (petition response : str) (s : session_state) :
  petition <> [] -> response <> [] ->
  let t := trace_of (analyze_case petition response s) in
  let g := get_guidance petition (claim_of petition) response in
  (forall msg, ~ In (UI (st_info msg)) t) /\
  (lower (status_of petition response) <> lit "closed" ->
   In (UI (plotly_sankey (extract_action_steps g))) t /\
   List.length (extract_action_steps g) = 5%nat /\
   (forall line, In line (split_newline (strip g)) ->
      In (UI (st_markdown ([PUSHPIN] ++ lit " " ++ line))) t) /\
   List.length (split_newline (strip g)) = 5%nat) /\
  (lower (status_of petition response) = lit "closed" ->
   (forall steps, ~ In (UI (plotly_sankey steps)) t) /\
   (forall line, ~ In (UI (st_markdown ([PUSHPIN] ++ lit " " ++ line))) t) /\
   ~ In (UI (st_subheader ([129517] ++ lit " Plan of Action"))) t).
Proof.
  intros Hp Hr. cbv zeta. rewrite (analyze_case_ok _ _ s Hp Hr).
  cbv beta iota delta [trace_of snd].
  set (g := get_guidance petition (claim_of petition) response).
  destruct (guidance_texts_have_five_steps _
              (get_guidance_cases petition (claim_of petition) response))
    as [L5 S5].
  fold g in L5, S5.
  split; [|split].
  - intros msg H. rewrite !in_app_iff in H. destruct H as [H|[H|H]].
    + simpl in H. repeat (destruct H as [H|H]; [discriminate H|]). exact H.
    + destruct (list_eq_dec N.eq_dec (lower (status_of petition response))
                  (lit "closed")) as [E|NE].
      * rewrite (follow_up_closed _ _ _ _ E) in H.
        destruct H as [H|[]]. discriminate H.
      * rewrite (follow_up_running _ _ _ _ NE) in H.
        rewrite !in_app_iff in H. destruct H as [H|[H|H]].
        -- simpl in H. repeat (destruct H as [H|H]; [discriminate H|]). exact H.
        -- apply in_map_iff in H as [line [H _]]. discriminate H.
        -- simpl in H. repeat (destruct H as [H|H]; [discriminate H|]). exact H.
    + destruct H as [H|[]]. discriminate H.
  - intros NE. rewrite (follow_up_running _ _ _ _ NE). fold g.
    split; [|split; [exact L5|split; [|exact S5]]].
    + rewrite !in_app_iff. right. left. right. right.
      right. left. reflexivity.
    + intros line Hl. rewrite !in_app_iff. right. left. right. left.
      apply in_map_iff. exists line. split; [reflexivity | exact Hl].
  - intros E. rewrite (follow_up_closed _ _ _ _ E). split; [|split].
    + intros steps H. rewrite !in_app_iff in H. destruct H as [H|[H|H]];
        simpl in H; repeat (destruct H as [H|H]; [discriminate H|]); exact H.
    + intros line H. rewrite !in_app_iff in H. destruct H as [H|[H|H]];
        simpl in H; repeat (destruct H as [H|H]; [discriminate H|]); exact H.
    + intros H. rewrite !in_app_iff in H. destruct H as [H|[H|H]];
        simpl in H; repeat (destruct H as [H|H]; [discriminate H|]); exact H.
Qed.

(** X10. Whenever a run draws the dashboard, it draws it from the whole
    session history as the run leaves it, the case just analysed being
    its last row; the table is therefore never empty.  A rejected run
    draws no dashboard. *)
Theorem dashboard_shows_updated_history (petition response : str) (s : session_state) :
  let run := analyze_case petition response s in
  (forall rows, In (UI (dashboard rows)) (trace_of run) ->
     rows = history (state_of run) /\
     rows = history s ++ [record_of (petition, response)] /\
     rows <> []) /\
  (successful (petition, response) = true ->
   filter is_dashboard (trace_of run) =
     [UI (dashboard (history s ++ [record_of (petition, response)]))]) /\
  (successful (petition, response) = false ->
   filter is_dashboard (trace_of run) = []).
Proof.
  cbv zeta. unfold successful. simpl fst. simpl snd.
  assert (F : forall p c r st, filter is_dashboard (follow_up p c r st) = []).
  { intros p c r st.
    destruct (list_eq_dec N.eq_dec (lower st) (lit "closed")) as [E|NE].
    - rewrite (follow_up_closed _ _ _ _ E). reflexivity.
    - rewrite (follow_up_running _ _ _ _ NE). rewrite !filter_app.
      rewrite (filter_none is_dashboard (map _ _)); [reflexivity|].
      apply Forall_forall. intros e He.
      apply in_map_iff in He as [line [<- _]]. reflexivity. }
  destruct (truthy petition) eqn:Ep; [destruct (truthy response) eqn:Er|].
  - apply truthy_nonempty in Ep, Er.
    rewrite (analyze_case_ok _ _ s Ep Er).
    cbv beta iota delta [trace_of state_of fst snd].
    assert (D : filter is_dashboard
                  ([Transform ClaimVectorizer [petition];
                    Predict ClaimModel [claim_vectorizer petition];
                    Transform ScoreVectorizer [response];
                    Predict ScoreModel [score_vectorizer response];
                    Transform StatusVectorizer
                      [status_blob petition (claim_of petition) response];
                    Predict StatusModel [status_row petition response];
                    UI (st_write (lit "### " ++ [129534] ++ lit " Case Status: `"
                                    ++ status_of petition response ++ lit "`"))]
                   ++ follow_up petition (claim_of petition) response
                        (status_of petition response)
                   ++ [UI (dashboard
                             (history s ++ [record_of (petition, response)]))])
                = [UI (dashboard (history s ++ [record_of (petition, response)]))]).
    { rewrite !filter_app, F. reflexivity. }
    split; [|split; [intros _; exact D | discriminate]].
    intros rows H.
    assert (I : In (UI (dashboard rows))
                   [UI (dashboard (history s ++ [record_of (petition, response)]))]).
    { rewrite <- D. apply filter_In. split; [exact H | reflexivity]. }
    destruct I as [I|[]]. injection I as <-.
    split; [reflexivity|]. split; [reflexivity|].
    intros Z. apply app_eq_nil in Z as [_ Z]. discriminate Z.
  - rewrite analyze_case_rejected by (right; apply truthy_empty; exact Er).
    split; [|split; [discriminate | reflexivity]].
    intros rows [H|[]]. discriminate H.
  - rewrite analyze_case_rejected by (left; apply truthy_empty; exact Ep).
    split; [|split; [discriminate | reflexivity]].
    intros rows [H|[]]. discriminate H.
Qed.

(** ** What a prediction depends on *)

Lemma appended_record (petition response : str) (s : session_state) :
  petition <> [] -> response <> [] ->
  last (history (state_of (analyze_case petition response s))) [] =
    record_of (petition, response).
Proof.
  intros Hp Hr. rewrite (analyze_case_ok _ _ s Hp Hr).
  cbv beta iota delta [state_of fst snd]. simpl history.
  apply last_last.
Qed.

(** X11. The record a run appends does not depend on the session it runs
    in: earlier cases never influence a prediction.  Its Claim is decided
    by the petition alone and its Score by the response alone, whatever
    the other text is. *)
Theorem predictions_ignore_session_and_other_text
    (petition response petition' response' : str) (s s' : session_state) :
  petition <> [] -> response <> [] -> petition' <> [] -> response' <> [] ->
  let appended p r st := last (history (state_of (analyze_case p r st))) [] in
  appended petition response s = appended petition response s' /\
  lookup (lit "Claim") (appended petition response s) =
    lookup (lit "Claim") (appended petition response' s') /\
  lookup (lit "Score") (appended petition response s) =
    lookup (lit "Score") (appended petition' response s') /\
  lookup (lit "Petition") (appended petition response s) = Some (VStr petition) /\
  lookup (lit "Response") (appended petition response s) = Some (VStr response).
Proof.
  intros Hp Hr Hp' Hr'. cbv beta zeta.
  rewrite !appended_record by assumption.
  repeat split.
Qed.

(** ** A session from any state *)

Lemma run_calls_app (calls1 calls2 : list (str * str)) :
  forall s, run_calls (calls1 ++ calls2) s = run_calls calls2 (run_calls calls1 s).
Proof.
  induction calls1 as [|[p r] rest IH]; intros s; simpl; [reflexivity|].
  apply IH.
Qed.

Lemma analyze_case_keeps_cases (petition response : str) (s : session_state) :
  cases s <> None -> cases (state_of (analyze_case petition response s)) <> None.
Proof.
  intros H.
  destruct (truthy petition) eqn:Ep; [destruct (truthy response) eqn:Er|].
  - rewrite analyze_case_ok by (apply truthy_nonempty; assumption). discriminate.
  - rewrite analyze_case_rejected by (right; apply truthy_empty; exact Er).
    exact H.
  - rewrite analyze_case_rejected by (left; apply truthy_empty; exact Ep).
    exact H.
Qed.

Lemma analyze_case_rejected_state (petition response : str) (s : session_state) :
  successful (petition, response) = false ->
  state_of (analyze_case petition response s) = s.
Proof.
  unfold successful. simpl fst. simpl snd. intros H.
  apply andb_false_iff in H as [H|H]; apply truthy_empty in H;
    rewrite analyze_case_rejected by auto; reflexivity.
Qed.

(** X12. Runs compose: running two batches one after the other is
    running their concatenation.  From any session state a batch keeps
    the history it finds as a prefix and appends the records of its
    successful runs in order, so the history never shrinks and grows by
    at most one record per run; once the [cases] attribute exists it
    stays; and a batch of rejected runs only leaves the state exactly as
    it was, a fresh session included. *)
Theorem session_history_from_any_state
    (calls1 calls2 : list (str * str)) (s : session_state) :
  run_calls (calls1 ++ calls2) s = run_calls calls2 (run_calls calls1 s) /\
  history (run_calls calls1 s) =
    history s ++ map record_of (filter successful calls1) /\
  (List.length (history s) <= List.length (history (run_calls calls1 s))
   <= List.length (history s) + List.length calls1)%nat /\
  (cases s <> None -> cases (run_calls calls1 s) <> None) /\
  (forallb (fun call => negb (successful call)) calls1 = true ->
   run_calls calls1 s = s).
Proof.
  split; [apply run_calls_app|]. split; [apply run_calls_history|].
  split; [|split].
  - rewrite run_calls_history, length_app, length_map.
    pose proof (filter_length_le successful calls1). lia.
  - revert s. induction calls1 as [|[p r] rest IH]; intros s H; simpl; [exact H|].
    apply IH, analyze_case_keeps_cases, H.
  - revert s. induction calls1 as [|[p r] rest IH]; intros s H; simpl;
      [reflexivity|].
    simpl in H. apply andb_true_iff in H as [H1 H2].
    apply negb_true_iff in H1.
    rewrite (analyze_case_rejected_state _ _ s H1). apply IH, H2.
Qed.

End Pipeline.

(** ** The dataset page: columns *)

Lemma str_eqb_neq (a b : str) : str_eqb a b = false <-> a <> b.
Proof.
  split.
  - intros H E. apply str_eqb_eq in E. congruence.
  - intros H. destruct (str_eqb a b) eqn:E; [|reflexivity].
    apply str_eqb_eq in E. contradiction.
Qed.

Lemma isin_In (x : str) (options : list str) :
  isin x options = true <-> In x options.
Proof.
  unfold isin. rewrite existsb_exists. split.
  - intros [y [Hy E]]. apply str_eqb_eq in E. now subst.
  - intros H. exists x. split; [exact H | now apply str_eqb_eq].
Qed.

Lemma rename_column_target (old new label : str) :
  In (old, new) RENAMED_COLUMNS ->
  rename_column RENAMED_COLUMNS label = new <-> label = old \/ label = new.
Proof.
  intros H. unfold RENAMED_COLUMNS in *. simpl in H.
  repeat (destruct H as [H|H]; [injection H as <- <-|]); try contradiction;
    cbn [rename_column];
    repeat match goal with
           | |- context [str_eqb label ?k] =>
               let E := fresh "E" in
               destruct (str_eqb label k) eqn:E;
               [apply str_eqb_eq in E | apply str_eqb_neq in E]
           end;
    (split;
     [ intros R; subst;
       first [ left; reflexivity | right; reflexivity
             | vm_compute in R; discriminate R ]
     | intros [R|R]; subst;
       first [ reflexivity | contradiction
             | match goal with
               | E : _ = _ |- _ => vm_compute in E; discriminate E
               end ] ]).
Qed.

Lemma expected_cols_renamed (e : str) :
  In e EXPECTED_COLS <-> exists old, In (old, e) RENAMED_COLUMNS.
Proof.
  unfold EXPECTED_COLS, RENAMED_COLUMNS. split.
  - intros H. simpl in H.
    repeat (destruct H as [<-|H]; [eexists; simpl; eauto 6|]). destruct H.
  - intros [old H]. simpl in H.
    repeat (destruct H as [H|H]; [injection H as <- <-; simpl; auto 6|]).
    destruct H.
Qed.

(** X13. After stripping the header cells and renaming, an expected
    column is reported missing exactly when no header cell, once
    stripped, is its name in the file or its name on the page; so the
    page passes the check exactly when each of the five columns is
    present under one of its two names, in any order and with any
    padding around the names. *)
Theorem dataset_columns_check (header : list str) :
  (forall old new, In (old, new) RENAMED_COLUMNS ->
     (In new (missing_cols (dataset_columns header)) <->
      forall h, In h header -> strip h <> old /\ strip h <> new)) /\
  (forall e, In e (missing_cols (dataset_columns header)) -> In e EXPECTED_COLS) /\
  (missing_cols (dataset_columns header) = [] <->
   forall old new, In (old, new) RENAMED_COLUMNS ->
     exists h, In h header /\ (strip h = old \/ strip h = new)).
Proof.
  assert (A : forall old new, In (old, new) RENAMED_COLUMNS ->
            (In new (missing_cols (dataset_columns header)) <->
             forall h, In h header -> strip h <> old /\ strip h <> new)).
  { intros old new H. unfold missing_cols, dataset_columns.
    rewrite filter_In, negb_true_iff.
    assert (X : In new EXPECTED_COLS)
      by (apply expected_cols_renamed; exists old; exact H).
    split.
    - intros [_ F] h Hh.
      assert (N : rename_column RENAMED_COLUMNS (strip h) <> new).
      { intros E. apply not_true_iff_false in F. apply F, isin_In.
        rewrite <- E. apply in_map, in_map, Hh. }
      rewrite (rename_column_target old new _ H) in N. tauto.
    - intros F. split; [exact X|]. apply not_true_iff_false. intros I.
      apply isin_In in I. apply in_map_iff in I as [c [E I]].
      apply in_map_iff in I as [h [<- Hh]].
      apply (rename_column_target old new _ H) in E.
      destruct (F h Hh). tauto. }
  assert (B : forall e, In e (missing_cols (dataset_columns header)) ->
                        In e EXPECTED_COLS).
  { intros e H. unfold missing_cols in H. apply filter_In in H. apply H. }
  split; [exact A|]. split.
  - exact B.
  - split.
    + intros E old new H.
      destruct (existsb (fun h => str_eqb (strip h) old || str_eqb (strip h) new)
                        header) eqn:X.
      * apply existsb_exists in X as [h [Hh X]]. exists h. split; [exact Hh|].
        apply orb_true_iff in X as [X|X]; apply str_eqb_eq in X; auto.
      * exfalso.
        assert (I : In new (missing_cols (dataset_columns header))).
        { apply (A old new H). intros h Hh.
          assert (Y : str_eqb (strip h) old || str_eqb (strip h) new = false).
          { destruct (str_eqb (strip h) old || str_eqb (strip h) new) eqn:Y;
              [|reflexivity].
            rewrite <- X. symmetry. apply existsb_exists.
            exists h. split; [exact Hh | exact Y]. }
          apply orb_false_iff in Y as [Y1 Y2].
          apply str_eqb_neq in Y1, Y2. split; assumption. }
        rewrite E in I. destruct I.
    + intros F. destruct (missing_cols (dataset_columns header)) as [|e l] eqn:M;
        [reflexivity|].
      exfalso.
      assert (I : In e (e :: l)) by (left; reflexivity).
      pose proof (B e I) as X.
      apply expected_cols_renamed in X as [old H].
      destruct (F old e H) as [h [Hh D]].
      destruct (A old e H) as [A1 _].
      destruct (A1 I h Hh). tauto.
Qed.

(** * The pipeline on the sample artefacts *)

Local Abbreviation sample_analyze_case :=
  (analyze_case Sample.nonascii_lower N Sample.vectorizer Sample.vectorizer
     Sample.vectorizer Sample.claim_model Sample.score_model Sample.status_model).

Local Abbreviation sample_run_calls :=
  (run_calls Sample.nonascii_lower N Sample.vectorizer Sample.vectorizer
     Sample.vectorizer Sample.claim_model Sample.score_model Sample.status_model).

Lemma sample_case_table_no_capital :
  forall (whole : str) (i : nat) (c : N), 128 <= c ->
    Forall (fun x => is_ascii_upper x = false) (Sample.nonascii_lower whole i c).
Proof.
  intros whole i c Hc. constructor; [|constructor].
  unfold is_ascii_upper, in_range, chr. simpl.
  apply andb_false_iff. right. apply N.leb_gt. lia.
Qed.

Example sample_running_case :
  let run := sample_analyze_case (lit "My brother went missing two days ago")
                                 (lit "pending") (fresh_session N) in
  result_of N run = inr tt /\
  state_of N run =
    {| cases := Some [case_record N
                        (lit "My brother went missing two days ago")
                        (lit "missing person") (lit "pending") 7
                        (lit "running")] |} /\
  List.length (trace_of N run) = 19%nat.
Proof. vm_compute. repeat split. Qed.

Example sample_rejected_case :
  sample_analyze_case [] (lit "pending") (fresh_session N)
  = (inr tt, fresh_session N, [UI N (st_error N VALIDATION_MESSAGE)]).
Proof. reflexivity. Qed.

(** Witness for C10, on a text with capitals, punctuation and outer
    blanks. *)
Lemma preprocess_text_lowercase_and_trimmed_witness :
  Forall (fun c => is_ascii_upper c = false)
         (preprocess_text Sample.nonascii_lower (lit "  Hello, World!  ")).
Proof.
  apply (preprocess_text_lowercase_and_trimmed Sample.nonascii_lower
           sample_case_table_no_capital (lit "  Hello, World!  ")).
Defined.

(** C2, as stated, fails on the petition "Hello World": the claim
    vectoriser receives that very text, which holds a capital and is
    therefore the normalised form of nothing. *)
Lemma normalization_before_vectorization_fails :
  ~ normalized_before_vectorization Sample.nonascii_lower N
      Sample.vectorizer Sample.vectorizer Sample.vectorizer
      Sample.claim_model Sample.score_model Sample.status_model
      (lit "Hello World") (lit "Under Review").
Proof.
  intros H.
  specialize (H (fresh_session N) ClaimVectorizer [lit "Hello World"]).
  assert (I : In (Transform N ClaimVectorizer [lit "Hello World"])
                 (trace_of N (sample_analyze_case (lit "Hello World")
                                (lit "Under Review") (fresh_session N))))
    by (left; reflexivity).
  apply H in I. inversion I as [|d l [raw Hraw] _].
  pose proof (preprocess_text_alphabet Sample.nonascii_lower
                sample_case_table_no_capital raw) as A.
  rewrite <- Hraw in A. inversion A as [|c t Hc _]. discriminate Hc.
Qed.

(** Witness for the amended C2. *)
Lemma vectorizers_receive_raw_text_witness :
  filter (is_transform N)
    (trace_of N (sample_analyze_case (lit "Hello World") (lit "Under Review")
                   (fresh_session N))) =
    [Transform N ClaimVectorizer [lit "Hello World"];
     Transform N ScoreVectorizer [lit "Under Review"];
     Transform N StatusVectorizer [lit "Hello World land dispute Under Review"]].
Proof.
  apply (vectorizers_receive_raw_text Sample.nonascii_lower N
           Sample.vectorizer Sample.vectorizer Sample.vectorizer
           Sample.claim_model Sample.score_model Sample.status_model
           (lit "Hello World") (lit "Under Review") (fresh_session N));
    discriminate.
Defined.

(** Witness for C7: a running case, for which the guidance is asked
    once. *)
Lemma guidance_only_when_not_closed_witness :
  guidance_calls N
    (trace_of N (sample_analyze_case
                   (lit "My brother went missing two days ago")
                   (lit "pending") (fresh_session N))) =
    [(lit "My brother went missing two days ago", lit "missing person",
      lit "pending")].
Proof.
  pose proof (guidance_only_when_not_closed Sample.nonascii_lower N
                Sample.vectorizer Sample.vectorizer Sample.vectorizer
                Sample.claim_model Sample.score_model Sample.status_model
                (lit "My brother went missing two days ago") (lit "pending")
                (fresh_session N)) as H.
  cbv zeta in H.
  destruct H as [_ [H _]]; [discriminate | discriminate |].
  apply H. vm_compute. discriminate.
Defined.


(** * Further properties on the sample artefacts *)

(** Witness for X1. *)
Lemma preprocess_text_on_plain_ascii_witness :
  preprocess_text Sample.nonascii_lower (lit "Stolen: 2 Bikes!") =
    filter (fun c => is_ascii_lower c || is_ascii_digit c)
           (map ascii_lower (lit "Stolen: 2 Bikes!")) /\
  Forall (fun c => isspace c = false)
         (preprocess_text Sample.nonascii_lower (lit "Stolen: 2 Bikes!")) /\
  preprocess_text Sample.nonascii_lower
    (preprocess_text Sample.nonascii_lower (lit "Stolen: 2 Bikes!")) =
    preprocess_text Sample.nonascii_lower (lit "Stolen: 2 Bikes!").
Proof.
  apply (preprocess_text_on_plain_ascii Sample.nonascii_lower
           (lit "Stolen: 2 Bikes!")).
  - repeat constructor.
  - vm_compute. intros H.
    repeat (destruct H as [H|H]; [discriminate H|]). exact H.
Defined.

(** Witness for X5. *)
Lemma get_guidance_missing_any_case_witness :
  get_guidance Sample.nonascii_lower (lit "any petition")
    (lit "Person " ++ lit "MiSSing" ++ lit " (minor)") (lit "any response")
  = GUIDANCE_MISSING.
Proof.
  apply (get_guidance_missing_any_case Sample.nonascii_lower
           (lit "any petition") (lit "any response")
           (lit "Person ") (lit "MiSSing") (lit " (minor)")).
  reflexivity.
Defined.

(** Witness for X9: a running case, whose chart is drawn. *)
Lemma plan_of_action_rendering_witness :
  In (UI N (plotly_sankey N
              (extract_action_steps
                 (get_guidance Sample.nonascii_lower
                    (lit "My brother went missing two days ago")
                    (claim_of N Sample.vectorizer Sample.claim_model
                       (lit "My brother went missing two days ago"))
                    (lit "pending")))))
     (trace_of N (sample_analyze_case
                    (lit "My brother went missing two days ago")
                    (lit "pending") (fresh_session N))).
Proof.
  pose proof (plan_of_action_rendering Sample.nonascii_lower N
                Sample.vectorizer Sample.vectorizer Sample.vectorizer
                Sample.claim_model Sample.score_model Sample.status_model
                (lit "My brother went missing two days ago") (lit "pending")
                (fresh_session N)) as H.
  cbv zeta in H.
  destruct H as [_ [H _]]; [discriminate | discriminate |].
  destruct H as [H _]; [vm_compute; discriminate | exact H].
Defined.

(** Witness for X11: the same petition with two responses, in two
    sessions. *)
Lemma predictions_ignore_session_and_other_text_witness :
  lookup N (lit "Claim")
    (last (history N (state_of N (sample_analyze_case (lit "Hello World")
                                    (lit "pending") (fresh_session N)))) []) =
  lookup N (lit "Claim")
    (last (history N (state_of N (sample_analyze_case (lit "Hello World")
                                    (lit "Under Review")
                                    {| cases := Some [] |}))) []).
Proof.
  pose proof (predictions_ignore_session_and_other_text Sample.nonascii_lower N
                Sample.vectorizer Sample.vectorizer Sample.vectorizer
                Sample.claim_model Sample.score_model Sample.status_model
                (lit "Hello World") (lit "pending") (lit "Hello World")
                (lit "Under Review") (fresh_session N) {| cases := Some [] |})
    as H.
  cbv beta zeta in H.
  destruct H as [_ [H _]]; [discriminate | discriminate | discriminate
                           | discriminate | exact H].
Defined.
